(** * koishi-plugin-github: the authenticated request pipeline and the
      webhook event dispatch of [src/index.ts]

    The [GitHub] service of [src/index.ts] is embedded as Rocq functions in
    a state-and-exception monad.  The collaborators the service talks to
    (the HTTP client [this.http], [session.send], [session.execute],
    [session.text], [ctx.serial], the logger) are not part of the file;
    they are a record [Env] of reply functions, one per collaborator, each
    told the whole world (session and calls made so far) at the moment of
    the call.  Every call made to a collaborator is appended to a trace, so
    that "how many HTTP calls were issued, and with which arguments" is a
    property of the final world.  A collaborator answers, resolving or
    rejecting; the only writes to the session are the two assignments of
    [request] itself.  Values are taken at their declared TypeScript types:
    the token columns and the fields of the token response are strings. *)

From stdpp Require Import base option list strings gmap.

Open Scope string_scope.

(** ** JavaScript values *)

(** The values an [any]-typed expression can hold, as far as the service
    looks at them: it only ever tests them for truthiness.  Objects are
    kept as their JSON text. *)
Inductive JsVal : Type :=
  | JUndefined
  | JNull
  | JBool (b : bool)
  | JNum (n : Z)
  | JStr (s : string)
  | JObj (json : string).

(** [!s] on a string: only the empty string is falsy. *)
Definition truthy_string (s : string) : bool :=
  match s with
  | EmptyString => false
  | String _ _ => true
  end.

(** JavaScript truthiness of a value ([if (v)], [!v]). *)
Definition truthy (v : JsVal) : bool :=
  match v with
  | JUndefined | JNull => false
  | JBool b => b
  | JNum n => negb (n =? 0)%Z
  | JStr s => truthy_string s
  | JObj _ => true
  end.

(** An optional string property ([action?: string]): absent is [undefined]. *)
Definition truthy_opt (o : option string) : bool :=
  match o with
  | None => false
  | Some s => truthy_string s
  end.

(** [Dict]: a JavaScript object used as a string-keyed map. *)
Abbreviation Dict := (gmap string string).

(** An object literal whose values may be [undefined] (the [params] of the
    token endpoint: [appId] and [appSecret] are optional in the config). *)
Abbreviation Params := (gmap string (option string)).

(** [{ ...defaults, ...extra }]: object spread, later keys win. *)
Definition spread {V} (defaults extra : gmap string V) : gmap string V :=
  extra ∪ defaults.

(** Spreading an omitted ([undefined]) argument adds no key. *)
Definition spread_opt {V} (defaults : gmap string V) (extra : option (gmap string V))
  : gmap string V :=
  match extra with
  | None => defaults
  | Some e => spread defaults e
  end.

(** ** Data model of [src/index.ts] *)

(** [interface OAuth]. *)
Record OAuth : Type := mkOAuth {
  access_token : string;
  expires_in : string;
  refresh_token : string;
  refresh_token_expires_in : string;
  token_type : string;
  scope : string
}.

(** [interface User { github: { accessToken, refreshToken } }]. *)
Record UserGithub : Type := mkUserGithub {
  accessToken : string;
  refreshToken : string
}.

(** The user row: the [github] columns the service declares and whatever
    other columns the host keeps. *)
Record User : Type := mkUser {
  github : UserGithub;
  user_fields : Dict
}.

(** The session: its observed user and everything else it carries. *)
Record Session : Type := mkSession {
  user : User;
  session_fields : Dict
}.

(** [namespace GitHub { interface Config }], the options the service reads. *)
Record Config : Type := mkConfig {
  appId : option string;
  appSecret : option string;
  requestTimeout : option N
}.

(** Modelled from the spec: [CommonPayload], declared in [./events], which
    is not among the sources.  The spec's event envelope carries an
    optional [action] string ([action?: string]) beside the payload
    object; [emit] reads nothing else of it, so the rest of the webhook
    body is kept as its text. *)
Record Payload : Type := mkPayload {
  action : option string;
  payload_body : string
}.

(** The response of an HTTP call that got one. *)
Record Response : Type := mkResponse {
  status : Z;
  response_data : JsVal
}.

(** What a [catch] clause can receive.  [Quester.isAxiosError] is true of
    the errors the HTTP client raises itself; any other object, with or
    without a [response] property, and any primitive can be thrown too. *)
Inductive Thrown : Type :=
  | AxiosError (message : string) (response : option Response)
  | OtherError (message : string) (response : option Response)
  | ThrownValue (v : JsVal).

Definition isAxiosError (e : Thrown) : bool :=
  match e with
  | AxiosError _ _ => true
  | _ => false
  end.

(** [error.response?.status]: [undefined] when there is no response. *)
Definition response_status (e : Thrown) : option Z :=
  match e with
  | AxiosError _ r | OtherError _ r => status <$> r
  | ThrownValue _ => None
  end.

(** [x !== 401] for [x] a number or [undefined]. *)
Definition status_is_not_401 (s : option Z) : bool :=
  match s with
  | Some n => negb (n =? 401)%Z
  | None => true
  end.

(** The guard of line 142:
    [!Quester.isAxiosError(error) || error.response?.status !== 401]. *)
Definition rethrown (e : Thrown) : bool :=
  negb (isAxiosError e) || status_is_not_401 (response_status e).

(** A failure of the HTTP call with status 401, said directly: the
    client's own error, carrying a response whose status is the number
    401.  [rethrown_iff] relates it to the guard of line 142. *)
Definition failed_with_401 (e : Thrown) : bool :=
  match e with
  | AxiosError _ (Some r) => (status r =? 401)%Z
  | _ => false
  end.

(** ** Calls to collaborators *)

(** The third argument of [this.http(method, url, config)]. *)
Record RequestConfig : Type := mkRequestConfig {
  data : JsVal;
  headers : Dict;
  timeout : option N
}.

(** The third argument of [this.http.post(url, data, config)]. *)
Record PostConfig : Type := mkPostConfig {
  post_params : Params;
  post_headers : Dict;
  post_timeout : option N
}.

Inductive Call : Type :=
  | LoggerDebug (method url : string) (body : JsVal)
  | Http (method url : string) (config : RequestConfig)
  | HttpPost (url : string) (body : JsVal) (config : PostConfig)
  | SessionSend (message : string)
  | SessionExecute (name : string)
  | CtxSerial (name : string) (payload : Payload).

(** How an awaited promise settles. *)
Inductive Outcome (A : Type) : Type :=
  | Resolved (a : A)
  | Rejected (e : Thrown).
Arguments Resolved {A} a.
Arguments Rejected {A} e.

(** The world a call runs in: the session object, shared by reference
    between [request], [_request] and [authorize], and the calls issued so
    far, oldest first. *)
Record World : Type := mkWorld {
  session : Session;
  trace : list Call
}.

(** The collaborators.  Each reply is a function of the world at the
    moment of the call and of the call's arguments. *)
Record Env : Type := mkEnv {
  http_reply : World -> string -> string -> RequestConfig -> Outcome JsVal;
  post_reply : World -> string -> JsVal -> PostConfig -> Outcome OAuth;
  send_reply : World -> string -> Outcome unit;
  execute_reply : World -> string -> Outcome unit;
  serial_reply : World -> string -> Payload -> Outcome JsVal;
  session_text : Session -> string -> string
}.

(** ** The monad of asynchronous methods *)

Definition M (A : Type) : Type := World -> Outcome A * World.

Definition ret {A} (a : A) : M A := fun w => (Resolved a, w).

Definition throw {A} (e : Thrown) : M A := fun w => (Rejected e, w).

Definition bind {A B} (m : M A) (k : A -> M B) : M B :=
  fun w =>
    match m w with
    | (Resolved a, w') => k a w'
    | (Rejected e, w') => (Rejected e, w')
    end.

(** [try { x = await m; ok x } catch (e) { handler e }], where [ok] is not
    itself covered by the [try]. *)
Definition try_catch {A B} (m : M A) (ok : A -> M B) (handler : Thrown -> M B) : M B :=
  fun w =>
    match m w with
    | (Resolved a, w') => ok a w'
    | (Rejected e, w') => handler e w'
    end.

#[global] Instance M_ret : MRet M := @ret.
#[global] Instance M_bind : MBind M := fun A B k m => bind m k.

Definition get_session : M Session := fun w => (Resolved (session w), w).

Definition put_github (g : UserGithub) : M unit :=
  fun w =>
    let s := session w in
    let u := user s in
    (Resolved tt,
     {| session := {| user := {| github := g; user_fields := user_fields u |};
                      session_fields := session_fields s |};
        trace := trace w |}).

(** Issue a call: the collaborator answers in the current world, and the
    call is recorded. *)
Definition perform {A} (c : Call) (reply : World -> Outcome A) : M A :=
  fun w => (reply w, {| session := session w; trace := trace w ++ [c] |}).

(** ** The service *)

Section Service.

Context (env : Env) (config : Config).

(** [ctx.serial(name, payload)]: the host's sequential handler pipeline
    for one key. *)
Definition serial (name : string) (payload : Payload) : M JsVal :=
  perform (CtxSerial name payload) (fun w => serial_reply env w name payload).

(** [`${x}`] for an optional string. *)
Definition template (o : option string) : string :=
  from_option id "undefined" o.

(** The key of the general pipeline, [`github/event/${event}`]. *)
Definition general_key (event : string) : string :=
  "github/event/" ++ event.

(** The key of the action-specific pipeline,
    [`github/event/${event}/${payload.action}`]. *)
Definition specific_key (event : string) (payload : Payload) : string :=
  "github/event/" ++ event ++ "/" ++ template (action payload).

(** [async emit(event, payload)], lines 89-98. *)
Definition emit (event : string) (payload : Payload) : M JsVal :=
  result ← (if truthy_opt (action payload)
            then serial (specific_key event payload) payload
            else mret JUndefined);
  if negb (truthy result)
  then serial (general_key event) payload
  else mret result.

Definition token_endpoint : string :=
  "https://github.com/login/oauth/access_token".

(** The config object [getTokens] hands to [this.http.post]. *)
Definition token_config (params : Params) : PostConfig :=
  {| post_params :=
       spread {[ "client_id" := appId config;
                 "client_secret" := appSecret config ]} params;
     post_headers := {[ "Accept" := "application/json" ]};
     post_timeout := requestTimeout config |}.

(** [async getTokens(params)], lines 104-114. *)
Definition getTokens (params : Params) : M OAuth :=
  perform (HttpPost token_endpoint (JObj "{}") (token_config params))
          (fun w => post_reply env w token_endpoint (JObj "{}") (token_config params)).

(** The config object [_request] hands to [this.http], read off the
    session at the moment of the call. *)
Definition request_config (s : Session) (body : JsVal) (hdrs : option Dict)
  : RequestConfig :=
  {| data := body;
     headers :=
       spread_opt {[ "accept" := "application/vnd.github.v3+json";
                     "authorization" := "token " ++ accessToken (github (user s)) ]}
                  hdrs;
     timeout := requestTimeout config |}.

(** [private async _request(method, url, session, data, headers)],
    lines 116-127. *)
Definition _request (method url : string) (body : JsVal) (hdrs : option Dict)
  : M JsVal :=
  perform (LoggerDebug method url body) (fun _ => Resolved tt);;
  s ← get_session;
  perform (Http method url (request_config s body hdrs))
          (fun w => http_reply env w method url (request_config s body hdrs)).

(** [async authorize(session, message)], lines 129-132. *)
Definition authorize (message : string) : M JsVal :=
  perform (SessionSend message) (fun w => send_reply env w message);;
  perform (SessionExecute "github.authorize")
          (fun w => execute_reply env w "github.authorize");;
  mret JUndefined.

(** [session.user.github.accessToken = v]. *)
Definition set_accessToken (v : string) : M unit :=
  s ← get_session;
  put_github {| accessToken := v;
                refreshToken := refreshToken (github (user s)) |}.

(** [session.user.github.refreshToken = v]. *)
Definition set_refreshToken (v : string) : M unit :=
  s ← get_session;
  put_github {| accessToken := accessToken (github (user s));
                refreshToken := v |}.

(** The argument of the refreshing [getTokens] call, lines 146-149. *)
Definition refresh_params (s : Session) : Params :=
  {[ "refresh_token" := Some (refreshToken (github (user s)));
     "grant_type" := Some "refresh_token" ]}.

(** The second [try] block, lines 145-154, and the retry of line 156. *)
Definition refresh_and_retry (method url : string) (body : JsVal)
           (hdrs : option Dict) : M JsVal :=
  try_catch
    (s ← get_session;
     tokens ← getTokens (refresh_params s);
     set_accessToken (access_token tokens);;
     set_refreshToken (refresh_token tokens))
    (fun _ => _request method url body hdrs)
    (fun _ =>
       s ← get_session;
       authorize (session_text env s "github.auth-expired")).

(** [async request(method, url, session, body, headers)], lines 134-157. *)
Definition request (method url : string) (body : JsVal) (hdrs : option Dict)
  : M JsVal :=
  s ← get_session;
  if negb (truthy_string (accessToken (github (user s))))
  then authorize (session_text env s "github.require-auth")
  else
    try_catch (_request method url body hdrs)
      mret
      (fun error =>
         if rethrown error
         then throw error
         else refresh_and_retry method url body hdrs).

End Service.

(** What a caller's headers say about one key. *)
Definition caller_header (hdrs : option Dict) (key : string) : option string :=
  hdrs ≫= (fun d => d !! key).

(** ** Reading a trace *)

(** A call to the HTTP client, [this.http] or [this.http.post]. *)
Definition is_http (c : Call) : bool :=
  match c with
  | Http _ _ _ | HttpPost _ _ _ => true
  | _ => false
  end.

(** A call of [this.http(method, url, config)]: the request or its retry. *)
Definition is_request (c : Call) : bool :=
  match c with
  | Http _ _ _ => true
  | _ => false
  end.

(** A call of [this.http.post]: the token endpoint. *)
Definition is_refresh (c : Call) : bool :=
  match c with
  | HttpPost _ _ _ => true
  | _ => false
  end.

(** A call of [ctx.serial] for the key [name]. *)
Definition is_serial_of (name : string) (c : Call) : bool :=
  match c with
  | CtxSerial n _ => bool_decide (n = name)
  | _ => false
  end.

(** How many calls of a trace satisfy [p]. *)
Fixpoint count (p : Call -> bool) (t : list Call) : nat :=
  match t with
  | [] => 0
  | c :: t' => (if p c then 1 else 0) + count p t'
  end.

(** The calls a run added to the trace: what [after] holds beyond
    [before]. *)
Definition issued (before after : World) : list Call :=
  drop (length (trace before)) (trace after).

(** The session with both stored tokens replaced. *)
Definition with_tokens (a r : string) (s : Session) : Session :=
  {| user := {| github := {| accessToken := a; refreshToken := r |};
                user_fields := user_fields (user s) |};
     session_fields := session_fields s |}.

(** The world after a run issued [calls], the session untouched. *)
Definition after (w : World) (calls : list Call) : World :=
  {| session := session w; trace := trace w ++ calls |}.

(** ** The paths of one request

  The state machine of one call of [request]: no token, success at
  once, a failure that is not a 401, a 401 whose refresh fails, a 401
  whose refresh resolves and is followed by the retry.  Each path gives
  the pair [request] returns: how the promise settles and the world it
  leaves. *)

Section Paths.

Context (env : Env) (config : Config).
Context (method url : string) (body : JsVal) (hdrs : option Dict) (w : World).

Inductive request_path : Outcome JsVal * World -> Prop :=
  | path_unauthenticated :
      truthy_string (accessToken (github (user (session w)))) = false ->
      request_path
        (authorize env (session_text env (session w) "github.require-auth") w)
  | path_success (v : JsVal) :
      truthy_string (accessToken (github (user (session w)))) = true ->
      http_reply env (after w [LoggerDebug method url body]) method url
                 (request_config config (session w) body hdrs) = Resolved v ->
      request_path
        (Resolved v,
         after w [LoggerDebug method url body;
                  Http method url (request_config config (session w) body hdrs)])
  | path_failed (e : Thrown) :
      truthy_string (accessToken (github (user (session w)))) = true ->
      http_reply env (after w [LoggerDebug method url body]) method url
                 (request_config config (session w) body hdrs) = Rejected e ->
      failed_with_401 e = false ->
      request_path
        (Rejected e,
         after w [LoggerDebug method url body;
                  Http method url (request_config config (session w) body hdrs)])
  | path_expired (e e' : Thrown) :
      truthy_string (accessToken (github (user (session w)))) = true ->
      http_reply env (after w [LoggerDebug method url body]) method url
                 (request_config config (session w) body hdrs) = Rejected e ->
      failed_with_401 e = true ->
      post_reply env
        (after w [LoggerDebug method url body;
                  Http method url (request_config config (session w) body hdrs)])
        token_endpoint (JObj "{}") (token_config config (refresh_params (session w)))
      = Rejected e' ->
      request_path
        (authorize env (session_text env (session w) "github.auth-expired")
           (after w [LoggerDebug method url body;
                     Http method url (request_config config (session w) body hdrs);
                     HttpPost token_endpoint (JObj "{}")
                              (token_config config (refresh_params (session w)))]))
  | path_retried (e : Thrown) (tokens : OAuth) :
      truthy_string (accessToken (github (user (session w)))) = true ->
      http_reply env (after w [LoggerDebug method url body]) method url
                 (request_config config (session w) body hdrs) = Rejected e ->
      failed_with_401 e = true ->
      post_reply env
        (after w [LoggerDebug method url body;
                  Http method url (request_config config (session w) body hdrs)])
        token_endpoint (JObj "{}") (token_config config (refresh_params (session w)))
      = Resolved tokens ->
      request_path
        (_request env config method url body hdrs
           {| session :=
                with_tokens (access_token tokens) (refresh_token tokens) (session w);
              trace :=
                trace w ++
                [LoggerDebug method url body;
                 Http method url (request_config config (session w) body hdrs);
                 HttpPost token_endpoint (JObj "{}")
                          (token_config config (refresh_params (session w)))] |}).

End Paths.

(** ** Scenarios *)

(** The identity of the spec's scenario: tokens [A1]/[R1]. *)
Definition scenario_session : Session :=
  {| user := {| github := {| accessToken := "A1"; refreshToken := "R1" |};
                user_fields := {[ "locale" := "en" ]} |};
     session_fields := {[ "platform" := "discord" ]} |}.

Definition scenario_world : World :=
  {| session := scenario_session; trace := [] |}.

Definition scenario_config : Config :=
  {| appId := Some "Iv1.0123"; appSecret := Some "s3cr3t"; requestTimeout := Some 5000%N |}.

Definition unauthorized : Thrown :=
  AxiosError "Request failed with status code 401"
             (Some {| status := 401; response_data := JNull |}).

Definition scenario_tokens : OAuth :=
  {| access_token := "A2"; expires_in := "28800"; refresh_token := "R2";
     refresh_token_expires_in := "15811200"; token_type := "bearer"; scope := "" |}.

(** The provider rejects the token [A1] with 401 and accepts any other;
    the token endpoint hands out [A2]/[R2]. *)
Definition scenario_env : Env :=
  {| http_reply := fun w _ _ _ =>
       if String.eqb (accessToken (github (user (session w)))) "A1"
       then Rejected unauthorized
       else Resolved (JObj "{login}");
     post_reply := fun _ _ _ _ => Resolved scenario_tokens;
     send_reply := fun _ _ => Resolved tt;
     execute_reply := fun _ _ => Resolved tt;
     serial_reply := fun _ name _ =>
       if String.eqb name "github/event/issues"
       then Resolved (JObj "{summary}")
       else Resolved JUndefined;
     session_text := fun _ path => path |}.

(** The same provider, with a token endpoint that turns the refresh down. *)
Definition expired_env : Env :=
  {| http_reply := http_reply scenario_env;
     post_reply := fun _ _ _ _ =>
       Rejected (AxiosError "Request failed with status code 400"
                            (Some {| status := 400; response_data := JNull |}));
     send_reply := send_reply scenario_env;
     execute_reply := execute_reply scenario_env;
     serial_reply := serial_reply scenario_env;
     session_text := session_text scenario_env |}.

(** A provider that is down: every call fails with 503. *)
Definition unavailable : Thrown :=
  AxiosError "Request failed with status code 503"
             (Some {| status := 503; response_data := JNull |}).

Definition down_env : Env :=
  {| http_reply := fun _ _ _ _ => Rejected unavailable;
     post_reply := post_reply scenario_env;
     send_reply := send_reply scenario_env;
     execute_reply := execute_reply scenario_env;
     serial_reply := serial_reply scenario_env;
     session_text := session_text scenario_env |}.

(** A session that never authorized: both columns hold the default [""]. *)
Definition anonymous_world : World :=
  {| session := with_tokens "" "" scenario_session; trace := [] |}.

(** A caller that brings its own [authorization] header. *)
Definition own_authorization : option Dict :=
  Some {[ "authorization" := "Bearer X" ]}.

(** [{action: 'closed', number: 7}] and a payload whose [action] is the
    empty string. *)
Definition closed_issue : Payload :=
  {| action := Some "closed"; payload_body := "{number: 7}" |}.

Definition empty_action : Payload :=
  {| action := Some ""; payload_body := "{number: 7}" |}.

(** An error object that is not the HTTP client's, though it carries a
    response with status 401. *)
Definition lookalike : Thrown :=
  OtherError "Unauthorized" (Some {| status := 401; response_data := JNull |}).

Definition lookalike_env : Env :=
  {| http_reply := fun _ _ _ _ => Rejected lookalike;
     post_reply := post_reply scenario_env;
     send_reply := send_reply scenario_env;
     execute_reply := execute_reply scenario_env;
     serial_reply := serial_reply scenario_env;
     session_text := session_text scenario_env |}.

(** A caller that asks for the raw media type. *)
Definition raw_accept : option Dict :=
  Some {[ "accept" := "application/vnd.github.raw"; "x-github-api-version" := "2022-11-28" ]}.

(** The parameters of the first exchange: the [code] of the callback. *)
Definition code_params : Params := {[ "code" := Some "c0de" ]}.

(** ** The rest of the service *)

(** [on(event, listener, prepend = false)], lines 100-102: a listener is
    registered with the host's [ctx.on] under [`github/event/` + event],
    and what [ctx.on] returns is handed back. *)
Definition on {L D : Type} (ctx_on : string -> L -> bool -> D)
           (event : string) (listener : L) (prepend : option bool) : D :=
  ctx_on ("github/event/" ++ event) listener (default false prepend).

(** A call of [session.send]. *)
Definition is_send (c : Call) : bool :=
  match c with
  | SessionSend _ => true
  | _ => false
  end.

(** A call of [session.execute]. *)
Definition is_execute (c : Call) : bool :=
  match c with
  | SessionExecute _ => true
  | _ => false
  end.

(** A call of [ctx.serial], whatever the key. *)
Definition is_serial (c : Call) : bool :=
  match c with
  | CtxSerial _ _ => true
  | _ => false
  end.

(** What a call issued by [request method url session body headers] may
    be: the log line and the HTTP call of the request itself, the POST of
    the refresh to the token endpoint, a message to the user, the
    [github.authorize] command. *)
Definition call_of_request (config : Config) (method url : string) (body : JsVal)
           (before : Session) (c : Call) : Prop :=
  match c with
  | LoggerDebug m u b => m = method /\ u = url /\ b = body
  | Http m u sent =>
      m = method /\ u = url /\ data sent = body
      /\ timeout sent = requestTimeout config
  | HttpPost u b sent =>
      u = token_endpoint /\ b = JObj "{}"
      /\ sent = token_config config (refresh_params before)
  | SessionSend _ => True
  | SessionExecute name => name = "github.authorize"
  | CtxSerial _ _ => False
  end.

(** A bot that cannot reach the user: [session.send] fails. *)
Definition offline : Thrown := OtherError "bot offline" None.

Definition muted_env : Env :=
  {| http_reply := http_reply scenario_env;
     post_reply := post_reply scenario_env;
     send_reply := fun _ _ => Rejected offline;
     execute_reply := execute_reply scenario_env;
     serial_reply := serial_reply scenario_env;
     session_text := session_text scenario_env |}.

(** A handler of [issues/closed] that throws. *)
Definition handler_error : Thrown := OtherError "handler failed" None.

Definition throwing_handler_env : Env :=
  {| http_reply := http_reply scenario_env;
     post_reply := post_reply scenario_env;
     send_reply := send_reply scenario_env;
     execute_reply := execute_reply scenario_env;
     serial_reply := fun _ name _ =>
       if String.eqb name "github/event/issues/closed"
       then Rejected handler_error
       else Resolved (JObj "{summary}");
     session_text := session_text scenario_env |}.

(** A host registry that only notes the registration. *)
Definition note_registration (name : string) (listener : string) (prepend : bool)
  : string * string * bool :=
  (name, listener, prepend).

(** ** Lemmas on traces and on the guard *)

Lemma issued_after (w : World) (calls : list Call) :
  issued w (after w calls) = calls.
Proof. unfold issued, after; simpl. by rewrite drop_app_length. Qed.

Lemma after_after (w : World) (c1 c2 : list Call) :
  after (after w c1) c2 = after w (c1 ++ c2)%list.
Proof. unfold after; simpl. by rewrite <- (assoc_L (++)%list). Qed.

Lemma rethrown_iff (e : Thrown) : rethrown e = negb (failed_with_401 e).
Proof.
  destruct e as [msg [r|]|msg [r|]|v]; reflexivity.
Qed.

Lemma failed_with_401_inv (e : Thrown) :
  failed_with_401 e = true ->
  exists msg r, e = AxiosError msg (Some r) /\ status r = 401%Z.
Proof.
  destruct e as [msg [r|]|msg [r|]|v]; simpl; try discriminate.
  intros H. exists msg, r. split; [reflexivity|]. by apply Z.eqb_eq.
Qed.

Lemma count_app (p : Call -> bool) (t1 t2 : list Call) :
  count p (t1 ++ t2)%list = count p t1 + count p t2.
Proof. induction t1 as [|c t1 IH]; simpl; [reflexivity|]. rewrite IH. lia. Qed.

(** ** What one run of each method does *)

Section Runs.

Context (env : Env) (config : Config).
Implicit Types (w : World) (method url : string) (body : JsVal)
         (hdrs : option Dict) (e : Thrown).

(** [_request] logs, then makes one call with the config built from the
    session as it is at that moment, and settles as that call does. *)
Lemma _request_run method url body hdrs w :
  _request env config method url body hdrs w =
  (http_reply env (after w [LoggerDebug method url body]) method url
              (request_config config (session w) body hdrs),
   after w [LoggerDebug method url body;
            Http method url (request_config config (session w) body hdrs)]).
Proof.
  unfold _request, mbind, M_bind, bind, perform, get_session, after; simpl.
  by rewrite <- (assoc_L (++)%list).
Qed.

(** [authorize] sends the message, then runs the [github.authorize]
    command, and resolves to [undefined] unless one of them fails. *)
Lemma authorize_run message w :
  authorize env message w =
  match send_reply env w message with
  | Rejected e => (Rejected e, after w [SessionSend message])
  | Resolved _ =>
      (match execute_reply env (after w [SessionSend message]) "github.authorize" with
       | Rejected e => Rejected e
       | Resolved _ => Resolved JUndefined
       end,
       after w [SessionSend message; SessionExecute "github.authorize"])
  end.
Proof.
  unfold authorize, mbind, M_bind, bind, perform, mret, M_ret, ret, after; simpl.
  destruct (send_reply env w message) as [[]|e]; [|reflexivity].
  rewrite <- (assoc_L (++)%list); simpl.
  by destruct (execute_reply env _ "github.authorize") as [[]|e].
Qed.

(** [authorize] touches neither the HTTP client nor the session, and
    its first call is the [send] of the message. *)
Lemma authorize_effects message w :
  count is_http (issued w (authorize env message w).2) = 0
  /\ session (authorize env message w).2 = session w
  /\ exists rest, issued w (authorize env message w).2 = SessionSend message :: rest.
Proof.
  rewrite authorize_run.
  destruct (send_reply env w message) as [[]|e]; simpl;
    rewrite issued_after; simpl; eauto.
Qed.

(** [getTokens] is one POST and settles as it does. *)
Lemma getTokens_run (params : Params) w :
  getTokens env config params w =
  (post_reply env w token_endpoint (JObj "{}") (token_config config params),
   after w [HttpPost token_endpoint (JObj "{}") (token_config config params)]).
Proof. reflexivity. Qed.

(** The first [try] block, by the way its call settles. *)
Lemma request_first_try method url body hdrs w :
  truthy_string (accessToken (github (user (session w)))) = true ->
  request env config method url body hdrs w =
  match http_reply env (after w [LoggerDebug method url body]) method url
                   (request_config config (session w) body hdrs) with
  | Resolved v =>
      (Resolved v,
       after w [LoggerDebug method url body;
                Http method url (request_config config (session w) body hdrs)])
  | Rejected e =>
      if rethrown e
      then (Rejected e,
            after w [LoggerDebug method url body;
                     Http method url (request_config config (session w) body hdrs)])
      else refresh_and_retry env config method url body hdrs
             (after w [LoggerDebug method url body;
                       Http method url (request_config config (session w) body hdrs)])
  end.
Proof.
  intros Htoken.
  unfold request, mbind, M_bind, bind, get_session; simpl.
  rewrite Htoken; simpl.
  unfold try_catch. rewrite _request_run.
  destruct (http_reply env _ method url _) as [v|e]; [reflexivity|].
  by destruct (rethrown e).
Qed.

(** The second [try] block, by the way the refresh settles. *)
Lemma refresh_and_retry_run method url body hdrs w :
  refresh_and_retry env config method url body hdrs w =
  match post_reply env w token_endpoint (JObj "{}")
                   (token_config config (refresh_params (session w))) with
  | Resolved tokens =>
      _request env config method url body hdrs
        {| session := with_tokens (access_token tokens) (refresh_token tokens) (session w);
           trace := trace w ++ [HttpPost token_endpoint (JObj "{}")
                                  (token_config config (refresh_params (session w)))] |}
  | Rejected _ =>
      authorize env (session_text env (session w) "github.auth-expired")
        (after w [HttpPost token_endpoint (JObj "{}")
                    (token_config config (refresh_params (session w)))])
  end.
Proof.
  unfold refresh_and_retry, try_catch, mbind, M_bind, bind, get_session; simpl.
  by destruct (post_reply env w token_endpoint _ _) as [tokens|e].
Qed.

End Runs.

(** The two traces [authorize] can leave. *)
Lemma authorize_calls (env : Env) (message : string) (w : World) :
  (authorize env message w).2 = after w [SessionSend message]
  \/ (authorize env message w).2 =
     after w [SessionSend message; SessionExecute "github.authorize"].
Proof.
  rewrite authorize_run.
  destruct (send_reply env w message) as [[]|e]; simpl; auto.
Qed.

Lemma authorize_session (env : Env) (message : string) (w : World) :
  session (authorize env message w).2 = session w.
Proof. by destruct (authorize_calls env message w) as [-> | ->]. Qed.

Lemma _request_session (env : Env) (config : Config) (method url : string)
      (body : JsVal) (hdrs : option Dict) (w : World) :
  session (_request env config method url body hdrs w).2 = session w.
Proof. by rewrite _request_run. Qed.

Lemma issued_app (w : World) (s : Session) (calls : list Call) :
  issued w {| session := s; trace := trace w ++ calls |} = calls.
Proof. unfold issued; simpl. by rewrite drop_app_length. Qed.

Lemma spread_opt_lookup {V} (defaults : gmap string V) (extra : option (gmap string V))
      (key : string) :
  spread_opt defaults extra !! key =
  match extra ≫= (fun d => d !! key) with
  | Some v => Some v
  | None => defaults !! key
  end.
Proof.
  destruct extra as [d|]; simpl; [|reflexivity].
  unfold spread. rewrite lookup_union.
  destruct (d !! key) as [v|] eqn:Hd; simpl.
  - by destruct (defaults !! key).
  - by destruct (defaults !! key).
Qed.

(** The [authorization] header of a call: the caller's, if the caller
    brought one, and [token <accessToken>] otherwise. *)
Lemma request_config_authorization (config : Config) (s : Session) (body : JsVal)
      (hdrs : option Dict) :
  headers (request_config config s body hdrs) !! "authorization" =
  match caller_header hdrs "authorization" with
  | Some v => Some v
  | None => Some ("token " ++ accessToken (github (user s)))
  end.
Proof.
  unfold request_config, caller_header; simpl. rewrite spread_opt_lookup.
  destruct (hdrs ≫= _); [reflexivity|].
  rewrite lookup_insert_ne by done. by rewrite lookup_singleton_eq.
Qed.

(** The [accept] header of a call, likewise. *)
Lemma request_config_accept (config : Config) (s : Session) (body : JsVal)
      (hdrs : option Dict) :
  headers (request_config config s body hdrs) !! "accept" =
  match caller_header hdrs "accept" with
  | Some v => Some v
  | None => Some "application/vnd.github.v3+json"
  end.
Proof.
  unfold request_config, caller_header; simpl. rewrite spread_opt_lookup.
  destruct (hdrs ≫= _); [reflexivity|].
  by rewrite lookup_insert_eq.
Qed.

(** Any other header of a call is the caller's. *)
Lemma request_config_other (config : Config) (s : Session) (body : JsVal)
      (hdrs : option Dict) (key : string) :
  key <> "accept" -> key <> "authorization" ->
  headers (request_config config s body hdrs) !! key = caller_header hdrs key.
Proof.
  intros Ha Hb. unfold request_config, caller_header; simpl.
  rewrite spread_opt_lookup.
  destruct (hdrs ≫= _); [reflexivity|].
  rewrite lookup_insert_ne by done. by rewrite lookup_singleton_ne.
Qed.

(** What the refreshing call sends: the stored refresh token and the
    grant type, whatever the static configuration holds. *)
Lemma refresh_token_config (config : Config) (s : Session) :
  post_params (token_config config (refresh_params s)) !! "refresh_token" =
    Some (Some (refreshToken (github (user s))))
  /\ post_params (token_config config (refresh_params s)) !! "grant_type" =
    Some (Some "refresh_token").
Proof.
  unfold token_config, refresh_params, spread; simpl. split.
  - apply lookup_union_Some_l. by rewrite lookup_insert_eq.
  - apply lookup_union_Some_l. rewrite lookup_insert_ne by done.
    by rewrite lookup_singleton_eq.
Qed.

(** The run of [request] on the refresh-and-retry path. *)
Lemma request_refreshed_run (env : Env) (config : Config)
      (method url : string) (body : JsVal) (hdrs : option Dict) (w : World)
      (e : Thrown) (tokens : OAuth) :
  truthy_string (accessToken (github (user (session w)))) = true ->
  http_reply env (after w [LoggerDebug method url body]) method url
             (request_config config (session w) body hdrs) = Rejected e ->
  failed_with_401 e = true ->
  post_reply env
    (after w [LoggerDebug method url body;
              Http method url (request_config config (session w) body hdrs)])
    token_endpoint (JObj "{}") (token_config config (refresh_params (session w)))
  = Resolved tokens ->
  request env config method url body hdrs w =
  _request env config method url body hdrs
    {| session := with_tokens (access_token tokens) (refresh_token tokens) (session w);
       trace := trace w ++
                [LoggerDebug method url body;
                 Http method url (request_config config (session w) body hdrs);
                 HttpPost token_endpoint (JObj "{}")
                          (token_config config (refresh_params (session w)))] |}.
Proof.
  intros Htoken Hfirst H401 Hrefresh.
  rewrite (request_first_try env config method url body hdrs w Htoken), Hfirst.
  rewrite rethrown_iff, H401; simpl.
  rewrite refresh_and_retry_run; simpl. rewrite Hrefresh.
  by rewrite <- (assoc_L (++)%list).
Qed.

Section PathOfRun.

Context (env : Env) (config : Config).
Context (method url : string) (body : JsVal) (hdrs : option Dict) (w : World).

(** Every run of [request] follows one of the paths. *)
Lemma request_follows_path :
  request_path env config method url body hdrs w
               (request env config method url body hdrs w).
Proof.
  destruct (truthy_string (accessToken (github (user (session w))))) eqn:Htoken.
  - destruct (http_reply env (after w [LoggerDebug method url body]) method url
                         (request_config config (session w) body hdrs))
      as [v|e] eqn:Hfirst.
    + rewrite (request_first_try env config method url body hdrs w Htoken), Hfirst.
      by apply path_success.
    + destruct (failed_with_401 e) eqn:H401.
      * destruct (post_reply env
                    (after w [LoggerDebug method url body;
                              Http method url
                                   (request_config config (session w) body hdrs)])
                    token_endpoint (JObj "{}")
                    (token_config config (refresh_params (session w))))
          as [tokens|e'] eqn:Hrefresh.
        -- rewrite (request_refreshed_run env config method url body hdrs w e tokens
                      Htoken Hfirst H401 Hrefresh).
           by apply (path_retried env config method url body hdrs w e tokens).
        -- rewrite (request_first_try env config method url body hdrs w Htoken), Hfirst.
           rewrite rethrown_iff, H401; simpl.
           rewrite refresh_and_retry_run; simpl. rewrite Hrefresh, after_after.
           by apply (path_expired env config method url body hdrs w e e').
      * rewrite (request_first_try env config method url body hdrs w Htoken), Hfirst.
        rewrite rethrown_iff, H401; simpl.
        by apply path_failed.
  - replace (request env config method url body hdrs w)
      with (authorize env (session_text env (session w) "github.require-auth") w).
    + by apply path_unauthenticated.
    + unfold request, mbind, M_bind, bind, get_session; simpl. by rewrite Htoken.
Qed.

End PathOfRun.

(** Case analysis on the path of the run in the goal; cases whose
    hypotheses contradict the path's are closed. *)
Ltac by_path env config method url body hdrs w :=
  destruct (request_follows_path env config method url body hdrs w)
    as [ Hpath_token
       | path_v Hpath_token Hpath_first
       | path_e Hpath_token Hpath_first Hpath_401
       | path_e path_e' Hpath_token Hpath_first Hpath_401 Hpath_refresh
       | path_e path_tokens Hpath_token Hpath_first Hpath_401 Hpath_refresh ];
  rewrite ?authorize_session, ?_request_session; simpl;
  intros;
  try congruence.

(** The refresh calls of a run, path by path. *)
Lemma request_refresh_count (env : Env) (config : Config)
      (method url : string) (body : JsVal) (hdrs : option Dict) (w : World) :
  count is_refresh (issued w (request env config method url body hdrs w).2) <> 0 ->
  exists e,
    http_reply env (after w [LoggerDebug method url body]) method url
               (request_config config (session w) body hdrs) = Rejected e
    /\ failed_with_401 e = true.
Proof.
  destruct (request_follows_path env config method url body hdrs w)
    as [ Htoken | v Htoken Hfirst | e Htoken Hfirst H401
       | e e' Htoken Hfirst H401 Hrefresh | e tokens Htoken Hfirst H401 Hrefresh ].
  - destruct (authorize_calls env (session_text env (session w) "github.require-auth") w)
      as [-> | ->]; rewrite issued_after; simpl; congruence.
  - cbn [snd]. rewrite issued_after; simpl; congruence.
  - cbn [snd]. rewrite issued_after; simpl; congruence.
  - intros _. by exists e.
  - intros _. by exists e.
Qed.

(** The calls of a run with a token start with the logged first call. *)
Lemma request_first_call (env : Env) (config : Config)
      (method url : string) (body : JsVal) (hdrs : option Dict) (w : World) :
  truthy_string (accessToken (github (user (session w)))) = true ->
  exists rest,
    issued w (request env config method url body hdrs w).2 =
    LoggerDebug method url body
      :: Http method url (request_config config (session w) body hdrs) :: rest.
Proof.
  intros Htoken.
  destruct (request_follows_path env config method url body hdrs w)
    as [ Hnone | v _ Hfirst | e _ Hfirst H401
       | e e' _ Hfirst H401 Hrefresh | e tokens _ Hfirst H401 Hrefresh ].
  - congruence.
  - cbn [snd]. rewrite issued_after. by exists [].
  - cbn [snd]. rewrite issued_after. by exists [].
  - destruct (authorize_calls env (session_text env (session w) "github.auth-expired")
                (after w [LoggerDebug method url body;
                          Http method url (request_config config (session w) body hdrs);
                          HttpPost token_endpoint (JObj "{}")
                                   (token_config config (refresh_params (session w)))]))
      as [-> | ->]; rewrite after_after, issued_after; simpl; eauto.
  - rewrite _request_run. unfold after; cbn [snd session trace].
    rewrite <- (assoc_L (++)%list), issued_app; simpl. eauto.
Qed.

(** [emit], by the way the action-specific pipeline settles. *)
Lemma emit_run (env : Env) (event : string) (payload : Payload) (w : World) :
  emit env event payload w =
  if truthy_opt (action payload)
  then
    match serial_reply env w (specific_key event payload) payload with
    | Rejected e =>
        (Rejected e, after w [CtxSerial (specific_key event payload) payload])
    | Resolved r =>
        if truthy r
        then (Resolved r, after w [CtxSerial (specific_key event payload) payload])
        else (serial_reply env
                (after w [CtxSerial (specific_key event payload) payload])
                (general_key event) payload,
              after w [CtxSerial (specific_key event payload) payload;
                       CtxSerial (general_key event) payload])
    end
  else (serial_reply env w (general_key event) payload,
        after w [CtxSerial (general_key event) payload]).
Proof.
  unfold emit, mbind, M_bind, bind, serial, perform, mret, M_ret, ret.
  destruct (truthy_opt (action payload)).
  - destruct (serial_reply env w (specific_key event payload) payload) as [r|e];
      [|reflexivity].
    destruct (truthy r); simpl; [reflexivity|].
    unfold after; simpl. by rewrite <- (assoc_L (++)%list).
  - simpl. reflexivity.
Qed.

Lemma append_longer (s : string) (a : Ascii.ascii) (t : string) : s ++ String a t <> s.
Proof.
  induction s as [|b s IH]; simpl; [discriminate|].
  intros Heq. injection Heq as Heq. by apply IH.
Qed.

(** The two keys of an event never coincide. *)
Lemma specific_key_not_general (event : string) (payload : Payload) :
  specific_key event payload <> general_key event.
Proof.
  unfold specific_key, general_key. intros Heq.
  apply (inj (String.app "github/event/")) in Heq.
  by apply append_longer in Heq.
Qed.

Lemma is_serial_of_same (name : string) (payload : Payload) :
  is_serial_of name (CtxSerial name payload) = true.
Proof. simpl. by apply bool_decide_eq_true. Qed.

Lemma is_serial_of_other (name name' : string) (payload : Payload) :
  name' <> name -> is_serial_of name (CtxSerial name' payload) = false.
Proof. intros Hne. simpl. by apply bool_decide_eq_false. Qed.

(** ** The request pipeline *)

(** C1, as the code has it: when the first HTTP call fails with 401 and
    the refresh call resolves, [request] makes exactly one refresh call
    (the stored refresh token and [grant_type = refresh_token] in its
    parameters) and exactly one retry of the original request (two
    [this.http] calls in the run, the first and the retry), and settles
    exactly as the retry does, resolved or rejected, with nothing issued
    after it.  The retry is built from the refreshed session: its
    [authorization] header is [token <new access token>], unless the caller
    passed an [authorization] header of its own, which then stands. *)
Theorem request_refresh_retry (env : Env) (config : Config)
        (method url : string) (body : JsVal) (hdrs : option Dict) (w : World)
        (e : Thrown) (tokens : OAuth) :
  truthy_string (accessToken (github (user (session w)))) = true ->
  http_reply env (after w [LoggerDebug method url body]) method url
             (request_config config (session w) body hdrs) = Rejected e ->
  failed_with_401 e = true ->
  post_reply env
    (after w [LoggerDebug method url body;
              Http method url (request_config config (session w) body hdrs)])
    token_endpoint (JObj "{}") (token_config config (refresh_params (session w)))
  = Resolved tokens ->
  let refreshed :=
    with_tokens (access_token tokens) (refresh_token tokens) (session w) in
  let first := Http method url (request_config config (session w) body hdrs) in
  let refresh :=
    HttpPost token_endpoint (JObj "{}")
             (token_config config (refresh_params (session w))) in
  let retry := Http method url (request_config config refreshed body hdrs) in
  request env config method url body hdrs w =
    (http_reply env
       {| session := refreshed;
          trace := trace w ++ [LoggerDebug method url body; first; refresh;
                               LoggerDebug method url body] |}
       method url (request_config config refreshed body hdrs),
     {| session := refreshed;
        trace := trace w ++ [LoggerDebug method url body; first; refresh;
                             LoggerDebug method url body; retry] |})
  /\ count is_refresh (issued w (request env config method url body hdrs w).2) = 1
  /\ count is_request (issued w (request env config method url body hdrs w).2) = 2
  /\ post_params (token_config config (refresh_params (session w))) !! "refresh_token"
     = Some (Some (refreshToken (github (user (session w)))))
  /\ post_params (token_config config (refresh_params (session w))) !! "grant_type"
     = Some (Some "refresh_token")
  /\ headers (request_config config refreshed body hdrs) !! "authorization" =
     match caller_header hdrs "authorization" with
     | Some v => Some v
     | None => Some ("token " ++ access_token tokens)
     end.
Proof.
  intros Htoken Hfirst H401 Hrefresh refreshed first refresh retry.
  assert (request env config method url body hdrs w =
          (http_reply env
             {| session := refreshed;
                trace := trace w ++ [LoggerDebug method url body; first; refresh;
                                     LoggerDebug method url body] |}
             method url (request_config config refreshed body hdrs),
           {| session := refreshed;
              trace := trace w ++ [LoggerDebug method url body; first; refresh;
                                   LoggerDebug method url body; retry] |})) as Hrun.
  { rewrite (request_refreshed_run env config method url body hdrs w e tokens
               Htoken Hfirst H401 Hrefresh).
    rewrite _request_run. unfold after; simpl.
    by rewrite <- !(assoc_L (++)%list). }
  rewrite Hrun; simpl. rewrite issued_app.
  destruct (refresh_token_config config (session w)) as [Hstored Hgrant].
  repeat split; try assumption; try reflexivity.
  exact (request_config_authorization config refreshed body hdrs).
Qed.

Lemma request_refresh_retry_witness :
  failed_with_401 unauthorized = true
  /\ request scenario_env scenario_config "GET" "/user" JUndefined None scenario_world =
     (Resolved (JObj "{login}"),
      {| session := with_tokens "A2" "R2" scenario_session;
         trace :=
           [LoggerDebug "GET" "/user" JUndefined;
            Http "GET" "/user"
                 (request_config scenario_config scenario_session JUndefined None);
            HttpPost token_endpoint (JObj "{}")
                     (token_config scenario_config (refresh_params scenario_session));
            LoggerDebug "GET" "/user" JUndefined;
            Http "GET" "/user"
                 (request_config scenario_config
                    (with_tokens "A2" "R2" scenario_session) JUndefined None)] |})
  /\ headers (request_config scenario_config (with_tokens "A2" "R2" scenario_session)
                JUndefined None) !! "authorization" = Some "token A2".
Proof.
  split; [reflexivity|].
  destruct (request_refresh_retry scenario_env scenario_config "GET" "/user" JUndefined
              None scenario_world unauthorized scenario_tokens)
    as (Hrun & _ & _ & _ & _ & Hauth); try reflexivity.
  split; [exact Hrun | exact Hauth].
Defined.

(** C1 as stated fails when the caller passes an [authorization] header:
    the first call is turned down with 401, the refresh resolves with
    [A2]/[R2], and the retry, the last call of the run, still carries the
    caller's [Bearer X] and not [token A2]. *)
Lemma retry_keeps_caller_authorization :
  truthy_string (accessToken (github (user (session scenario_world)))) = true
  /\ http_reply scenario_env
       (after scenario_world [LoggerDebug "GET" "/user" JUndefined]) "GET" "/user"
       (request_config scenario_config scenario_session JUndefined own_authorization)
     = Rejected unauthorized
  /\ failed_with_401 unauthorized = true
  /\ post_reply scenario_env
       (after scenario_world
          [LoggerDebug "GET" "/user" JUndefined;
           Http "GET" "/user"
                (request_config scenario_config scenario_session JUndefined
                                own_authorization)])
       token_endpoint (JObj "{}")
       (token_config scenario_config (refresh_params scenario_session))
     = Resolved scenario_tokens
  /\ exists retry : RequestConfig,
       last (trace (request scenario_env scenario_config "GET" "/user" JUndefined
                            own_authorization scenario_world).2)
       = Some (Http "GET" "/user" retry)
       /\ headers retry !! "authorization" = Some "Bearer X"
       /\ headers retry !! "authorization"
          <> Some ("token " ++ access_token scenario_tokens).
Proof.
  repeat split; try reflexivity.
  exists (request_config scenario_config (with_tokens "A2" "R2" scenario_session)
                         JUndefined own_authorization).
  repeat split; try reflexivity.
  vm_compute. discriminate.
Qed.

(** C2: when the stored access token is missing (the empty string, falsy),
    [request] is exactly the call of [authorize] with the
    [github.require-auth] text: it returns what that call returns, its
    first call is the [send] of that text, and no HTTP call is issued. *)
Theorem request_without_token (env : Env) (config : Config)
        (method url : string) (body : JsVal) (hdrs : option Dict) (w : World) :
  truthy_string (accessToken (github (user (session w)))) = false ->
  request env config method url body hdrs w =
    authorize env (session_text env (session w) "github.require-auth") w
  /\ count is_http (issued w (request env config method url body hdrs w).2) = 0
  /\ exists rest,
       issued w (request env config method url body hdrs w).2 =
       SessionSend (session_text env (session w) "github.require-auth") :: rest.
Proof.
  intros Htoken.
  assert (request env config method url body hdrs w =
          authorize env (session_text env (session w) "github.require-auth") w) as Hrun.
  { unfold request, mbind, M_bind, bind, get_session; simpl. by rewrite Htoken. }
  rewrite Hrun. split; [reflexivity|].
  destruct (authorize_effects env (session_text env (session w) "github.require-auth") w)
    as (Hhttp & _ & Hsend).
  split; assumption.
Qed.

Lemma request_without_token_witness :
  truthy_string (accessToken (github (user (session anonymous_world)))) = false
  /\ request scenario_env scenario_config "GET" "/user" JUndefined None anonymous_world =
       authorize scenario_env
         (session_text scenario_env (session anonymous_world) "github.require-auth")
         anonymous_world.
Proof.
  split; [reflexivity|].
  apply (request_without_token scenario_env scenario_config "GET" "/user"
           JUndefined None anonymous_world).
  reflexivity.
Defined.

(** C3: when the first HTTP call fails with 401 and the refresh call then
    fails, with whatever error, [request] continues as the call of
    [authorize] with the [github.auth-expired] text and returns what it
    returns.  The original request is not retried (one [this.http] call in
    the run), and nothing after the refresh is an HTTP call. *)
Theorem request_refresh_failed (env : Env) (config : Config)
        (method url : string) (body : JsVal) (hdrs : option Dict) (w : World)
        (e e' : Thrown) :
  truthy_string (accessToken (github (user (session w)))) = true ->
  http_reply env (after w [LoggerDebug method url body]) method url
             (request_config config (session w) body hdrs) = Rejected e ->
  failed_with_401 e = true ->
  post_reply env
    (after w [LoggerDebug method url body;
              Http method url (request_config config (session w) body hdrs)])
    token_endpoint (JObj "{}") (token_config config (refresh_params (session w)))
  = Rejected e' ->
  let refreshed :=
    after w [LoggerDebug method url body;
             Http method url (request_config config (session w) body hdrs);
             HttpPost token_endpoint (JObj "{}")
                      (token_config config (refresh_params (session w)))] in
  request env config method url body hdrs w =
    authorize env (session_text env (session w) "github.auth-expired") refreshed
  /\ count is_request (issued w (request env config method url body hdrs w).2) = 1
  /\ count is_http (issued refreshed (request env config method url body hdrs w).2) = 0
  /\ exists rest,
       issued refreshed (request env config method url body hdrs w).2 =
       SessionSend (session_text env (session w) "github.auth-expired") :: rest.
Proof.
  intros Htoken Hfirst H401 Hrefresh refreshed.
  assert (request env config method url body hdrs w =
          authorize env (session_text env (session w) "github.auth-expired") refreshed)
    as Hrun.
  { rewrite (request_first_try env config method url body hdrs w Htoken), Hfirst.
    rewrite rethrown_iff, H401; simpl.
    rewrite refresh_and_retry_run; simpl. rewrite Hrefresh.
    by rewrite after_after. }
  rewrite Hrun. split; [reflexivity|].
  destruct (authorize_effects env (session_text env (session w) "github.auth-expired")
              refreshed) as (Hhttp & _ & Hsend).
  split; [|split; assumption].
  destruct (authorize_calls env (session_text env (session w) "github.auth-expired")
              refreshed) as [-> | ->];
    unfold refreshed; rewrite after_after, issued_after; reflexivity.
Qed.

Lemma request_refresh_failed_witness :
  failed_with_401 unauthorized = true
  /\ request expired_env scenario_config "GET" "/user" JUndefined None scenario_world =
       authorize expired_env "github.auth-expired"
         (after scenario_world
            [LoggerDebug "GET" "/user" JUndefined;
             Http "GET" "/user"
                  (request_config scenario_config scenario_session JUndefined None);
             HttpPost token_endpoint (JObj "{}")
                      (token_config scenario_config (refresh_params scenario_session))]).
Proof.
  split; [reflexivity|].
  apply (request_refresh_failed expired_env scenario_config "GET" "/user" JUndefined None
           scenario_world unauthorized
           (AxiosError "Request failed with status code 400"
                       (Some {| status := 400; response_data := JNull |})));
    reflexivity.
Defined.

(** C4: with a token present, when the first HTTP call fails with anything
    but an HTTP 401, [request] rejects with that very error after the one
    call it made: one HTTP call in the whole run, no refresh, no retry. *)
Theorem request_other_error (env : Env) (config : Config)
        (method url : string) (body : JsVal) (hdrs : option Dict) (w : World)
        (e : Thrown) :
  truthy_string (accessToken (github (user (session w)))) = true ->
  http_reply env (after w [LoggerDebug method url body]) method url
             (request_config config (session w) body hdrs) = Rejected e ->
  failed_with_401 e = false ->
  request env config method url body hdrs w =
    (Rejected e,
     after w [LoggerDebug method url body;
              Http method url (request_config config (session w) body hdrs)])
  /\ count is_http (issued w (request env config method url body hdrs w).2) = 1
  /\ count is_refresh (issued w (request env config method url body hdrs w).2) = 0.
Proof.
  intros Htoken Hfirst Hother.
  rewrite (request_first_try env config method url body hdrs w Htoken), Hfirst.
  rewrite rethrown_iff, Hother; simpl.
  rewrite issued_after. auto.
Qed.

Lemma request_other_error_witness :
  failed_with_401 unavailable = false
  /\ request down_env scenario_config "GET" "/user" JUndefined None scenario_world =
       (Rejected unavailable,
        after scenario_world
          [LoggerDebug "GET" "/user" JUndefined;
           Http "GET" "/user"
                (request_config scenario_config (session scenario_world) JUndefined None)]).
Proof.
  split; [reflexivity|].
  apply (request_other_error down_env scenario_config "GET" "/user" JUndefined None
           scenario_world unavailable); reflexivity.
Defined.

(** C5: the two stored tokens change together or not at all.  Whatever
    the run, the pair [request] leaves is the pair it found or the pair of
    the refresh response.  It is the pair it found when there was no token,
    when the first call resolved, when it failed with something else than
    a 401, and when the refresh failed; when the refresh resolved, the
    retry is started on a session that already holds both new tokens, and
    that session is the one the run leaves. *)
Theorem tokens_updated_as_pair (env : Env) (config : Config)
        (method url : string) (body : JsVal) (hdrs : option Dict) (w : World) :
  let final := (request env config method url body hdrs w).2 in
  let first_reply :=
    http_reply env (after w [LoggerDebug method url body]) method url
               (request_config config (session w) body hdrs) in
  let refresh_reply :=
    post_reply env
      (after w [LoggerDebug method url body;
                Http method url (request_config config (session w) body hdrs)])
      token_endpoint (JObj "{}") (token_config config (refresh_params (session w))) in
  let has_token := truthy_string (accessToken (github (user (session w)))) in
  (github (user (session final)) = github (user (session w))
   \/ exists tokens,
        refresh_reply = Resolved tokens
        /\ github (user (session final)) =
           {| accessToken := access_token tokens;
              refreshToken := refresh_token tokens |})
  /\ (has_token = false -> session final = session w)
  /\ (forall v, has_token = true -> first_reply = Resolved v ->
                session final = session w)
  /\ (forall e, has_token = true -> first_reply = Rejected e ->
                failed_with_401 e = false -> session final = session w)
  /\ (forall e e', has_token = true -> first_reply = Rejected e ->
                   failed_with_401 e = true -> refresh_reply = Rejected e' ->
                   session final = session w)
  /\ (forall e tokens, has_token = true -> first_reply = Rejected e ->
                       failed_with_401 e = true -> refresh_reply = Resolved tokens ->
        request env config method url body hdrs w =
          _request env config method url body hdrs
            {| session :=
                 with_tokens (access_token tokens) (refresh_token tokens) (session w);
               trace :=
                 trace w ++
                 [LoggerDebug method url body;
                  Http method url (request_config config (session w) body hdrs);
                  HttpPost token_endpoint (JObj "{}")
                           (token_config config (refresh_params (session w)))] |}
        /\ session final =
           with_tokens (access_token tokens) (refresh_token tokens) (session w)).
Proof.
  cbv zeta. repeat split.
  - by_path env config method url body hdrs w; auto.
    right. exists path_tokens. by split.
  - by_path env config method url body hdrs w.
  - by_path env config method url body hdrs w.
  - by_path env config method url body hdrs w.
  - by_path env config method url body hdrs w.
  - by apply (request_refreshed_run env config method url body hdrs w e tokens).
  - by_path env config method url body hdrs w.
Qed.

Lemma tokens_updated_as_pair_witness :
  session (request scenario_env scenario_config "GET" "/user" JUndefined None
                   scenario_world).2
  = with_tokens "A2" "R2" scenario_session.
Proof.
  destruct (tokens_updated_as_pair scenario_env scenario_config "GET" "/user" JUndefined
              None scenario_world) as (_ & _ & _ & _ & _ & Hretried).
  exact (proj2 (Hretried unauthorized scenario_tokens eq_refl eq_refl eq_refl eq_refl)).
Defined.

(** ** Event dispatch *)

(** C6, as the code has it: [emit] consults the action-specific pipeline
    exactly when [payload.action] is truthy, that is present and not the
    empty string.  If that pipeline resolves with a truthy result, [emit]
    resolves with it and the general pipeline is not consulted.  If it
    resolves with a falsy result (as it does when no handler is
    registered), or if there is no truthy action, the general pipeline is
    consulted and [emit] settles as it does. *)
Theorem emit_dispatch (env : Env) (event : string) (payload : Payload) (w : World) :
  let specific := specific_key event payload in
  let general := general_key event in
  let run := emit env event payload w in
  let has_action := truthy_opt (action payload) in
  (count (is_serial_of specific) (issued w run.2) <> 0 <-> has_action = true)
  /\ (forall r, has_action = true ->
        serial_reply env w specific payload = Resolved r -> truthy r = true ->
        run = (Resolved r, after w [CtxSerial specific payload])
        /\ count (is_serial_of general) (issued w run.2) = 0)
  /\ (forall r, has_action = true ->
        serial_reply env w specific payload = Resolved r -> truthy r = false ->
        run = (serial_reply env (after w [CtxSerial specific payload]) general payload,
               after w [CtxSerial specific payload; CtxSerial general payload]))
  /\ (has_action = false ->
      run = (serial_reply env w general payload,
             after w [CtxSerial general payload])).
Proof.
  cbv zeta.
  pose proof (specific_key_not_general event payload) as Hkeys.
  split; [|split; [|split]].
  - rewrite emit_run.
    destruct (truthy_opt (action payload)).
    + split; [reflexivity|]. intros _.
      destruct (serial_reply env w (specific_key event payload) payload) as [r|e];
        [destruct (truthy r)|];
        cbn [snd]; rewrite issued_after; cbn [count];
        rewrite is_serial_of_same; lia.
    + split; [|discriminate]. intros Hcount. exfalso. apply Hcount.
      cbn [snd]. rewrite issued_after; cbn [count].
      rewrite is_serial_of_other; [reflexivity|]. congruence.
  - intros r Haction Hspecific Htruthy.
    rewrite emit_run, Haction, Hspecific, Htruthy.
    split; [reflexivity|].
    cbn [snd]. rewrite issued_after; cbn [count].
    by rewrite is_serial_of_other.
  - intros r Haction Hspecific Hfalsy.
    by rewrite emit_run, Haction, Hspecific, Hfalsy.
  - intros Haction. by rewrite emit_run, Haction.
Qed.

(** The spec's scenario: nobody listens to [issues/closed], a handler of
    [issues] answers. *)
Lemma emit_dispatch_witness :
  truthy_opt (action closed_issue) = true
  /\ emit scenario_env "issues" closed_issue scenario_world =
     (Resolved (JObj "{summary}"),
      after scenario_world
        [CtxSerial "github/event/issues/closed" closed_issue;
         CtxSerial "github/event/issues" closed_issue]).
Proof.
  split; [reflexivity|].
  destruct (emit_dispatch scenario_env "issues" closed_issue scenario_world)
    as (_ & _ & Hfallback & _).
  exact (Hfallback JUndefined eq_refl eq_refl eq_refl).
Defined.

(** C6 as stated fails on a payload whose [action] is present but empty:
    the run consults the general pipeline alone. *)
Lemma empty_action_skips_specific :
  action empty_action = Some ""
  /\ emit scenario_env "issues" empty_action scenario_world =
     (Resolved (JObj "{summary}"),
      after scenario_world [CtxSerial "github/event/issues" empty_action])
  /\ count (is_serial_of (specific_key "issues" empty_action))
           (issued scenario_world
                   (emit scenario_env "issues" empty_action scenario_world).2) = 0.
Proof. repeat split. Qed.

(** ** Headers and the token endpoint *)

(** C7: with a token present, the HTTP call [request] issues carries
    [authorization: token <accessToken>] and
    [accept: application/vnd.github.v3+json], merged with the caller's
    headers: under either of the two keys the caller's value stands if the
    caller gave one and the default stands otherwise, and every other key is
    the caller's. *)
Theorem request_headers (env : Env) (config : Config)
        (method url : string) (body : JsVal) (hdrs : option Dict) (w : World) :
  truthy_string (accessToken (github (user (session w)))) = true ->
  let sent := request_config config (session w) body hdrs in
  (exists rest,
     issued w (request env config method url body hdrs w).2 =
     LoggerDebug method url body :: Http method url sent :: rest)
  /\ headers sent !! "authorization" =
     match caller_header hdrs "authorization" with
     | Some v => Some v
     | None => Some ("token " ++ accessToken (github (user (session w))))
     end
  /\ headers sent !! "accept" =
     match caller_header hdrs "accept" with
     | Some v => Some v
     | None => Some "application/vnd.github.v3+json"
     end
  /\ (forall key, key <> "accept" -> key <> "authorization" ->
                  headers sent !! key = caller_header hdrs key).
Proof.
  intros Htoken sent.
  split; [by apply request_first_call|].
  split; [apply request_config_authorization|].
  split; [apply request_config_accept|].
  apply request_config_other.
Qed.

Lemma request_headers_witness :
  truthy_string (accessToken (github (user (session scenario_world)))) = true
  /\ headers (request_config scenario_config scenario_session JUndefined raw_accept)
       !! "authorization" = Some "token A1"
  /\ headers (request_config scenario_config scenario_session JUndefined raw_accept)
       !! "accept" = Some "application/vnd.github.raw".
Proof.
  split; [reflexivity|].
  destruct (request_headers scenario_env scenario_config "GET" "/user" JUndefined
              raw_accept scenario_world eq_refl) as (_ & Hauth & Haccept & _).
  split; [exact Hauth | exact Haccept].
Defined.

(** C8: [getTokens] is exactly one POST, to the provider's token endpoint,
    and settles as that call does, handing back the token object it
    resolves with.  Its parameters are the caller's merged over
    [client_id] and [client_secret] of the configuration (a key of the
    caller's stands, the two configured ones fill in when the caller has
    none), its one header is [Accept: application/json], and its timeout is
    the configured [requestTimeout]. *)
Theorem getTokens_post (env : Env) (config : Config) (params : Params) (w : World) :
  let sent := token_config config params in
  getTokens env config params w =
    (post_reply env w token_endpoint (JObj "{}") sent,
     after w [HttpPost token_endpoint (JObj "{}") sent])
  /\ token_endpoint = "https://github.com/login/oauth/access_token"
  /\ count is_http (issued w (getTokens env config params w).2) = 1
  /\ (forall key,
        post_params sent !! key =
        match params !! key with
        | Some v => Some v
        | None =>
            ({[ "client_id" := appId config;
                "client_secret" := appSecret config ]} : Params) !! key
        end)
  /\ (params !! "client_id" = None ->
      post_params sent !! "client_id" = Some (appId config))
  /\ (params !! "client_secret" = None ->
      post_params sent !! "client_secret" = Some (appSecret config))
  /\ post_headers sent = {[ "Accept" := "application/json" ]}
  /\ post_timeout sent = requestTimeout config.
Proof.
  cbv zeta.
  assert (forall key,
            post_params (token_config config params) !! key =
            match params !! key with
            | Some v => Some v
            | None =>
                ({[ "client_id" := appId config;
                    "client_secret" := appSecret config ]} : Params) !! key
            end) as Hmerge.
  { intros key. unfold token_config, spread; simpl. rewrite lookup_union.
    destruct (params !! key); simpl.
    - by destruct (_ !! key).
    - by destruct (_ !! key). }
  split; [apply getTokens_run|].
  split; [reflexivity|].
  split; [rewrite getTokens_run; cbn [snd]; by rewrite issued_after|].
  split; [exact Hmerge|].
  split; [|split; [|split; reflexivity]].
  - intros Hnone. rewrite Hmerge, Hnone. by rewrite lookup_insert_eq.
  - intros Hnone. rewrite Hmerge, Hnone.
    rewrite lookup_insert_ne by done. by rewrite lookup_singleton_eq.
Qed.

Lemma getTokens_post_witness :
  code_params !! "client_id" = None
  /\ post_params (token_config scenario_config code_params) !! "client_id"
     = Some (Some "Iv1.0123").
Proof.
  split; [reflexivity|].
  destruct (getTokens_post scenario_env scenario_config code_params scenario_world)
    as (_ & _ & _ & _ & Hid & _).
  exact (Hid eq_refl).
Defined.

(** ** What a run may throw back, and what it may write *)

(** C9: the refresh is attempted only when the first call threw the HTTP
    client's own error with a response whose status is exactly 401.  Any
    other thrown value comes back to the caller as it is, after the one
    call, with no refresh: in particular another error object that carries
    a response with status 401, a client error without a response, and a
    thrown value that is no error at all. *)
Theorem refresh_only_on_axios_401 (env : Env) (config : Config)
        (method url : string) (body : JsVal) (hdrs : option Dict) (w : World) :
  let run := request env config method url body hdrs w in
  let first_reply :=
    http_reply env (after w [LoggerDebug method url body]) method url
               (request_config config (session w) body hdrs) in
  let has_token := truthy_string (accessToken (github (user (session w)))) in
  let once :=
    after w [LoggerDebug method url body;
             Http method url (request_config config (session w) body hdrs)] in
  (count is_refresh (issued w run.2) <> 0 ->
   exists message r,
     first_reply = Rejected (AxiosError message (Some r)) /\ status r = 401%Z)
  /\ (forall e, has_token = true -> first_reply = Rejected e ->
        (forall message r, e = AxiosError message (Some r) -> status r <> 401%Z) ->
        run = (Rejected e, once) /\ count is_refresh (issued w run.2) = 0)
  /\ (forall message r, has_token = true ->
        first_reply = Rejected (OtherError message r) ->
        run = (Rejected (OtherError message r), once))
  /\ (forall message, has_token = true ->
        first_reply = Rejected (AxiosError message None) ->
        run = (Rejected (AxiosError message None), once))
  /\ (forall v, has_token = true ->
        first_reply = Rejected (ThrownValue v) ->
        run = (Rejected (ThrownValue v), once)).
Proof.
  cbv zeta.
  assert (forall e,
            truthy_string (accessToken (github (user (session w)))) = true ->
            http_reply env (after w [LoggerDebug method url body]) method url
                       (request_config config (session w) body hdrs) = Rejected e ->
            failed_with_401 e = false ->
            request env config method url body hdrs w =
            (Rejected e,
             after w [LoggerDebug method url body;
                      Http method url (request_config config (session w) body hdrs)]))
    as Hback.
  { intros e Htoken Hfirst Hother.
    rewrite (request_first_try env config method url body hdrs w Htoken), Hfirst.
    by rewrite rethrown_iff, Hother. }
  split; [|split; [|split; [|split]]].
  - intros Hrefresh.
    destruct (request_refresh_count env config method url body hdrs w Hrefresh)
      as (e & Hfirst & H401).
    destruct (failed_with_401_inv e H401) as (message & r & -> & Hstatus).
    by exists message, r.
  - intros e Htoken Hfirst Hshape.
    assert (failed_with_401 e = false) as Hother.
    { destruct (failed_with_401 e) eqn:H401; [|reflexivity].
      destruct (failed_with_401_inv e H401) as (message & r & He & Hstatus).
      by destruct (Hshape message r He). }
    rewrite (Hback e Htoken Hfirst Hother); simpl.
    by rewrite issued_after.
  - intros message r Htoken Hfirst. by apply Hback.
  - intros message Htoken Hfirst. by apply Hback.
  - intros v Htoken Hfirst. by apply Hback.
Qed.

Lemma refresh_only_on_axios_401_witness :
  request lookalike_env scenario_config "GET" "/user" JUndefined None scenario_world =
  (Rejected lookalike,
   after scenario_world
     [LoggerDebug "GET" "/user" JUndefined;
      Http "GET" "/user"
           (request_config scenario_config scenario_session JUndefined None)]).
Proof.
  destruct (refresh_only_on_axios_401 lookalike_env scenario_config "GET" "/user"
              JUndefined None scenario_world) as (_ & _ & Hother & _).
  exact (Hother "Unauthorized" (Some {| status := 401; response_data := JNull |})
                eq_refl eq_refl).
Defined.

(** C10: [request] writes nothing of the session but the two token
    columns: the other columns of the user and the rest of the session are
    as they were.  The token pair differs afterwards only if the first call
    failed with 401 and the refresh resolved; a run whose first call
    resolves, or fails with something else than a 401, leaves the whole
    session as it found it. *)
Theorem request_frame (env : Env) (config : Config)
        (method url : string) (body : JsVal) (hdrs : option Dict) (w : World) :
  let final := (request env config method url body hdrs w).2 in
  let first_reply :=
    http_reply env (after w [LoggerDebug method url body]) method url
               (request_config config (session w) body hdrs) in
  let refresh_reply :=
    post_reply env
      (after w [LoggerDebug method url body;
                Http method url (request_config config (session w) body hdrs)])
      token_endpoint (JObj "{}") (token_config config (refresh_params (session w))) in
  let has_token := truthy_string (accessToken (github (user (session w)))) in
  user_fields (user (session final)) = user_fields (user (session w))
  /\ session_fields (session final) = session_fields (session w)
  /\ (github (user (session final)) <> github (user (session w)) ->
      has_token = true
      /\ exists e tokens,
           first_reply = Rejected e /\ failed_with_401 e = true
           /\ refresh_reply = Resolved tokens)
  /\ (forall v, has_token = true -> first_reply = Resolved v ->
                session final = session w)
  /\ (forall e, has_token = true -> first_reply = Rejected e ->
                failed_with_401 e = false -> session final = session w).
Proof.
  cbv zeta.
  split; [by_path env config method url body hdrs w|].
  split; [by_path env config method url body hdrs w|].
  split; [|split].
  - by_path env config method url body hdrs w.
    split; [assumption|]. exists path_e, path_tokens. auto.
  - by_path env config method url body hdrs w.
  - by_path env config method url body hdrs w.
Qed.

Lemma request_frame_witness :
  session (request down_env scenario_config "GET" "/user" JUndefined None
                   scenario_world).2
  = session scenario_world.
Proof.
  destruct (request_frame down_env scenario_config "GET" "/user" JUndefined None
              scenario_world) as (_ & _ & _ & _ & Hfailed).
  exact (Hfailed unavailable eq_refl eq_refl eq_refl).
Defined.

(** ** Further properties of the request pipeline *)

(** Without a token [request] is the prompt. *)
Lemma request_unauthenticated_run (env : Env) (config : Config)
      (method url : string) (body : JsVal) (hdrs : option Dict) (w : World) :
  truthy_string (accessToken (github (user (session w)))) = false ->
  request env config method url body hdrs w =
  authorize env (session_text env (session w) "github.require-auth") w.
Proof.
  intros Htoken. unfold request, mbind, M_bind, bind, get_session; simpl.
  by rewrite Htoken.
Qed.

(** Case analysis on the path of the run in the goal, with the calls the
    run issued written out as a list. *)
Ltac calls_by_path env config method url body hdrs w :=
  destruct (request_follows_path env config method url body hdrs w)
    as [ Hpath_token
       | path_v Hpath_token Hpath_first
       | path_e Hpath_token Hpath_first Hpath_401
       | path_e path_e' Hpath_token Hpath_first Hpath_401 Hpath_refresh
       | path_e path_tokens Hpath_token Hpath_first Hpath_401 Hpath_refresh ];
  [ match goal with
    | |- context [authorize ?e ?m ?w'] =>
        destruct (authorize_calls e m w') as [-> | ->]
    end; rewrite ?issued_after
  | cbn [snd]; rewrite ?issued_after
  | cbn [snd]; rewrite ?issued_after
  | match goal with
    | |- context [authorize ?e ?m ?w'] =>
        destruct (authorize_calls e m w') as [-> | ->]
    end; rewrite ?after_after, ?issued_after
  | rewrite _request_run; unfold after; cbn [snd session trace];
    rewrite <- ?(assoc_L (++)%list), ?issued_app ].

(** X1: with a token present, a first call that resolves is the whole
    run: [request] resolves with the same value after the log line and
    that one HTTP call; there is no refresh and no message to the user. *)
Theorem request_success (env : Env) (config : Config)
        (method url : string) (body : JsVal) (hdrs : option Dict) (w : World)
        (v : JsVal) :
  truthy_string (accessToken (github (user (session w)))) = true ->
  http_reply env (after w [LoggerDebug method url body]) method url
             (request_config config (session w) body hdrs) = Resolved v ->
  request env config method url body hdrs w =
    (Resolved v,
     after w [LoggerDebug method url body;
              Http method url (request_config config (session w) body hdrs)])
  /\ count is_http (issued w (request env config method url body hdrs w).2) = 1
  /\ count is_send (issued w (request env config method url body hdrs w).2) = 0.
Proof.
  intros Htoken Hfirst.
  rewrite (request_first_try env config method url body hdrs w Htoken), Hfirst.
  cbn [snd]. rewrite issued_after. auto.
Qed.

Lemma request_success_witness :
  request scenario_env scenario_config "GET" "/user" JUndefined None
          {| session := with_tokens "A2" "R2" scenario_session; trace := [] |} =
  (Resolved (JObj "{login}"),
   after {| session := with_tokens "A2" "R2" scenario_session; trace := [] |}
     [LoggerDebug "GET" "/user" JUndefined;
      Http "GET" "/user"
           (request_config scenario_config (with_tokens "A2" "R2" scenario_session)
                           JUndefined None)]).
Proof.
  apply (request_success scenario_env scenario_config "GET" "/user" JUndefined None
           {| session := with_tokens "A2" "R2" scenario_session; trace := [] |}
           (JObj "{login}")); reflexivity.
Defined.

(** X2: whatever the collaborators answer, one run of [request] calls
    [this.http] at most twice and the token endpoint at most once, sends
    the user at most one message and runs at most one command, never
    dispatches an event, and only adds to the trace.  A second [this.http]
    call happens only together with a refresh and never together with a
    message to the user. *)
Theorem request_call_bounds (env : Env) (config : Config)
        (method url : string) (body : JsVal) (hdrs : option Dict) (w : World) :
  let final := (request env config method url body hdrs w).2 in
  let calls := issued w final in
  trace final = (trace w ++ calls)%list
  /\ count is_request calls <= 2
  /\ count is_refresh calls <= 1
  /\ count is_send calls <= 1
  /\ count is_execute calls <= count is_send calls
  /\ count is_serial calls = 0
  /\ (count is_request calls = 2 ->
      count is_refresh calls = 1 /\ count is_send calls = 0).
Proof.
  cbv zeta. split.
  - destruct (request_follows_path env config method url body hdrs w)
      as [ Htoken | v Htoken Hfirst | e Htoken Hfirst H401
         | e e' Htoken Hfirst H401 Hrefresh | e tokens Htoken Hfirst H401 Hrefresh ].
    + destruct (authorize_calls env (session_text env (session w) "github.require-auth") w)
        as [-> | ->]; by rewrite issued_after.
    + cbn [snd]. by rewrite issued_after.
    + cbn [snd]. by rewrite issued_after.
    + match goal with
      | |- context [authorize ?e0 ?m ?w'] =>
          destruct (authorize_calls e0 m w') as [-> | ->]
      end; by rewrite after_after, issued_after.
    + rewrite _request_run. unfold after; cbn [snd session trace].
      by rewrite <- (assoc_L (++)%list), issued_app.
  - calls_by_path env config method url body hdrs w; simpl; repeat split; lia.
Qed.

Lemma request_call_bounds_witness :
  count is_refresh
        (issued scenario_world
                (request scenario_env scenario_config "GET" "/user" JUndefined None
                         scenario_world).2) = 1
  /\ count is_send
           (issued scenario_world
                   (request scenario_env scenario_config "GET" "/user" JUndefined None
                            scenario_world).2) = 0.
Proof.
  destruct (request_call_bounds scenario_env scenario_config "GET" "/user" JUndefined
              None scenario_world) as (_ & _ & _ & _ & _ & _ & Htwice).
  exact (Htwice eq_refl).
Defined.

(** X3: [request] turns to the user only for want of credentials: if a
    run sends a message, then either there was no access token, or the
    first call failed with 401 and the refresh failed too. *)
Theorem prompt_only_without_credentials (env : Env) (config : Config)
        (method url : string) (body : JsVal) (hdrs : option Dict) (w : World) :
  count is_send (issued w (request env config method url body hdrs w).2) <> 0 ->
  truthy_string (accessToken (github (user (session w)))) = false
  \/ exists e e',
       http_reply env (after w [LoggerDebug method url body]) method url
                  (request_config config (session w) body hdrs) = Rejected e
       /\ failed_with_401 e = true
       /\ post_reply env
            (after w [LoggerDebug method url body;
                      Http method url (request_config config (session w) body hdrs)])
            token_endpoint (JObj "{}")
            (token_config config (refresh_params (session w)))
          = Rejected e'.
Proof.
  calls_by_path env config method url body hdrs w; simpl; intros Hsend;
    try (by left); try lia; right; by exists path_e, path_e'.
Qed.

Lemma prompt_only_without_credentials_witness :
  exists e e',
    http_reply expired_env
      (after scenario_world [LoggerDebug "GET" "/user" JUndefined]) "GET" "/user"
      (request_config scenario_config scenario_session JUndefined None) = Rejected e
    /\ failed_with_401 e = true
    /\ post_reply expired_env
         (after scenario_world
            [LoggerDebug "GET" "/user" JUndefined;
             Http "GET" "/user"
                  (request_config scenario_config scenario_session JUndefined None)])
         token_endpoint (JObj "{}")
         (token_config scenario_config (refresh_params scenario_session))
       = Rejected e'.
Proof.
  destruct (prompt_only_without_credentials expired_env scenario_config "GET" "/user"
              JUndefined None scenario_world) as [Hnone | Hexpired].
  - vm_compute. discriminate.
  - vm_compute in Hnone. discriminate Hnone.
  - exact Hexpired.
Defined.

(** X4: [authorize] stops at the first failure.  If [session.send]
    rejects, [authorize] rejects with the same error and the
    [github.authorize] command is never run; if the command rejects,
    [authorize] rejects with that error; if both resolve, [authorize]
    resolves to [undefined].  In no case does it touch the session or the
    HTTP client. *)
Theorem authorize_outcomes (env : Env) (message : string) (w : World) :
  (forall e, send_reply env w message = Rejected e ->
     authorize env message w = (Rejected e, after w [SessionSend message]))
  /\ (forall e, send_reply env w message = Resolved tt ->
        execute_reply env (after w [SessionSend message]) "github.authorize"
        = Rejected e ->
        authorize env message w =
        (Rejected e,
         after w [SessionSend message; SessionExecute "github.authorize"]))
  /\ (send_reply env w message = Resolved tt ->
      execute_reply env (after w [SessionSend message]) "github.authorize"
      = Resolved tt ->
      authorize env message w =
      (Resolved JUndefined,
       after w [SessionSend message; SessionExecute "github.authorize"]))
  /\ session (authorize env message w).2 = session w
  /\ count is_http (issued w (authorize env message w).2) = 0.
Proof.
  split; [|split; [|split; [|split]]].
  - intros e Hsend. by rewrite authorize_run, Hsend.
  - intros e Hsend Hexecute. by rewrite authorize_run, Hsend, Hexecute.
  - intros Hsend Hexecute. by rewrite authorize_run, Hsend, Hexecute.
  - apply authorize_session.
  - by destruct (authorize_effects env message w) as (Hhttp & _).
Qed.

Lemma authorize_outcomes_witness :
  authorize muted_env "github.require-auth" anonymous_world =
  (Rejected offline, after anonymous_world [SessionSend "github.require-auth"]).
Proof.
  destruct (authorize_outcomes muted_env "github.require-auth" anonymous_world)
    as (Hmuted & _).
  exact (Hmuted offline eq_refl).
Defined.

(** X5: every call a run of [request] issues belongs to the request: an
    HTTP call has the method, the URL, the body of the request and the
    configured timeout; a POST goes to the token endpoint with the refresh
    parameters of the session as it was; the only command run is
    [github.authorize]. *)
Theorem request_calls_belong (env : Env) (config : Config)
        (method url : string) (body : JsVal) (hdrs : option Dict) (w : World) :
  Forall (call_of_request config method url body (session w))
         (issued w (request env config method url body hdrs w).2).
Proof.
  calls_by_path env config method url body hdrs w;
    repeat (constructor; [by repeat split|]); constructor.
Qed.

(** X6: what a refresh changes in the retry.  The config of the retry
    differs from that of the first call at most in the [authorization]
    header: when the caller brought no such header, the retry's headers are
    the first call's with [authorization] set to [token <stored token>];
    when the caller brought one, the config does not depend on the session
    at all, so the retry repeats the first call to the letter. *)
Theorem retry_config (config : Config) (before refreshed : Session)
        (body : JsVal) (hdrs : option Dict) :
  data (request_config config refreshed body hdrs)
  = data (request_config config before body hdrs)
  /\ timeout (request_config config refreshed body hdrs)
     = timeout (request_config config before body hdrs)
  /\ (caller_header hdrs "authorization" = None ->
      headers (request_config config refreshed body hdrs) =
      <[ "authorization" := "token " ++ accessToken (github (user refreshed)) ]>
        (headers (request_config config before body hdrs)))
  /\ (forall v, caller_header hdrs "authorization" = Some v ->
      request_config config refreshed body hdrs
      = request_config config before body hdrs).
Proof.
  split; [reflexivity|]. split; [reflexivity|]. split.
  - intros Hnone. apply map_eq. intros key.
    destruct (decide (key = "authorization")) as [-> | Hkey].
    + rewrite lookup_insert_eq, request_config_authorization. by rewrite Hnone.
    + rewrite lookup_insert_ne by done.
      destruct (decide (key = "accept")) as [-> | Hkey'].
      * by rewrite !request_config_accept.
      * by rewrite !request_config_other.
  - intros v Hown.
    assert (headers (request_config config refreshed body hdrs)
            = headers (request_config config before body hdrs)) as Hheaders.
    { apply map_eq. intros key.
      destruct (decide (key = "authorization")) as [-> | Hkey].
      - rewrite !request_config_authorization. by rewrite Hown.
      - destruct (decide (key = "accept")) as [-> | Hkey'].
        + by rewrite !request_config_accept.
        + by rewrite !request_config_other. }
    unfold request_config in *; simpl in *. by rewrite Hheaders.
Qed.

Lemma retry_config_witness :
  request_config scenario_config (with_tokens "A2" "R2" scenario_session)
                 JUndefined own_authorization
  = request_config scenario_config scenario_session JUndefined own_authorization.
Proof.
  destruct (retry_config scenario_config scenario_session
              (with_tokens "A2" "R2" scenario_session) JUndefined own_authorization)
    as (_ & _ & _ & Hown).
  exact (Hown "Bearer X" eq_refl).
Defined.

(** X7: the parameters of the refreshing POST are exactly [client_id],
    [client_secret], [refresh_token] and [grant_type]; the two client
    credentials are those of the configuration, since the refresh passes
    neither key itself. *)
Theorem refresh_parameters (config : Config) (s : Session) :
  dom (post_params (token_config config (refresh_params s)))
  = ({[ "client_id"; "client_secret"; "refresh_token"; "grant_type" ]} : gset string)
  /\ post_params (token_config config (refresh_params s)) !! "client_id"
     = Some (appId config)
  /\ post_params (token_config config (refresh_params s)) !! "client_secret"
     = Some (appSecret config)
  /\ post_params (token_config config (refresh_params s)) !! "refresh_token"
     = Some (Some (refreshToken (github (user s))))
  /\ post_params (token_config config (refresh_params s)) !! "grant_type"
     = Some (Some "refresh_token").
Proof.
  destruct (refresh_token_config config s) as [Hstored Hgrant].
  split; [|split; [|split; [|split]]]; try assumption.
  - unfold token_config, refresh_params, spread; simpl.
    rewrite dom_union_L, !dom_insert_L, !dom_singleton_L. set_solver.
  - unfold token_config, refresh_params, spread; simpl.
    rewrite lookup_union_r.
    + by rewrite lookup_insert_eq.
    + rewrite lookup_insert_ne by done. by rewrite lookup_singleton_ne.
  - unfold token_config, refresh_params, spread; simpl.
    rewrite lookup_union_r.
    + rewrite lookup_insert_ne by done. by rewrite lookup_singleton_eq.
    + rewrite lookup_insert_ne by done. by rewrite lookup_singleton_ne.
Qed.

(** X8: the refreshed token serves the next request.  After a run that
    went through a resolved refresh, a following [request] on the same
    session starts with an HTTP call built from the refreshed session, with
    [authorization: token <new access token>] unless the caller brings its
    own.  The response is stored unchecked: if its [access_token] is the
    empty string, the following [request] makes no HTTP call and prompts
    for authorization instead. *)
Theorem refreshed_token_serves_next (env : Env) (config : Config)
        (method url : string) (body : JsVal) (hdrs : option Dict) (w : World)
        (e : Thrown) (tokens : OAuth)
        (method' url' : string) (body' : JsVal) (hdrs' : option Dict) :
  truthy_string (accessToken (github (user (session w)))) = true ->
  http_reply env (after w [LoggerDebug method url body]) method url
             (request_config config (session w) body hdrs) = Rejected e ->
  failed_with_401 e = true ->
  post_reply env
    (after w [LoggerDebug method url body;
              Http method url (request_config config (session w) body hdrs)])
    token_endpoint (JObj "{}") (token_config config (refresh_params (session w)))
  = Resolved tokens ->
  let w' := (request env config method url body hdrs w).2 in
  let refreshed :=
    with_tokens (access_token tokens) (refresh_token tokens) (session w) in
  (truthy_string (access_token tokens) = true ->
   (exists rest,
      issued w' (request env config method' url' body' hdrs' w').2 =
      LoggerDebug method' url' body'
        :: Http method' url' (request_config config refreshed body' hdrs') :: rest)
   /\ (caller_header hdrs' "authorization" = None ->
       headers (request_config config refreshed body' hdrs') !! "authorization"
       = Some ("token " ++ access_token tokens)))
  /\ (truthy_string (access_token tokens) = false ->
      request env config method' url' body' hdrs' w' =
        authorize env (session_text env refreshed "github.require-auth") w'
      /\ count is_http (issued w' (request env config method' url' body' hdrs' w').2)
         = 0).
Proof.
  intros Htoken Hfirst H401 Hrefresh w' refreshed.
  assert (session w' = refreshed) as Hsession.
  { unfold w'.
    rewrite (request_refreshed_run env config method url body hdrs w e tokens
               Htoken Hfirst H401 Hrefresh).
    by rewrite _request_session. }
  split.
  - intros Hnew.
    assert (truthy_string (accessToken (github (user (session w')))) = true) as Htoken'.
    { by rewrite Hsession. }
    split.
    + destruct (request_first_call env config method' url' body' hdrs' w' Htoken')
        as [rest Hcalls].
      exists rest. by rewrite Hcalls, Hsession.
    + intros Hnone. rewrite request_config_authorization. by rewrite Hnone.
  - intros Hempty.
    assert (truthy_string (accessToken (github (user (session w')))) = false) as Htoken'.
    { by rewrite Hsession. }
    rewrite (request_unauthenticated_run env config method' url' body' hdrs' w' Htoken').
    rewrite Hsession. split; [reflexivity|].
    by destruct (authorize_effects env (session_text env refreshed "github.require-auth")
                   w') as (Hhttp & _).
Qed.

Lemma refreshed_token_serves_next_witness :
  failed_with_401 unauthorized = true
  /\ headers (request_config scenario_config
                (with_tokens (access_token scenario_tokens)
                             (refresh_token scenario_tokens) (session scenario_world))
                (JObj "{title}") None) !! "authorization"
     = Some ("token " ++ access_token scenario_tokens).
Proof.
  split; [reflexivity|].
  destruct (refreshed_token_serves_next scenario_env scenario_config "GET" "/user"
              JUndefined None scenario_world unauthorized scenario_tokens
              "POST" "/repos/koishijs/koishi/issues" (JObj "{title}") None
              eq_refl eq_refl eq_refl eq_refl)
    as (Hnext & _).
  destruct (Hnext eq_refl) as (_ & Hheader).
  exact (Hheader eq_refl).
Defined.

(** ** Further properties of the event dispatch *)

(** X9: a handler that throws aborts the dispatch.  If the
    action-specific pipeline rejects, [emit] rejects with the same error
    and the general pipeline is never consulted; if the general pipeline
    rejects, on fallback or without an action, [emit] rejects with that
    error. *)
Theorem emit_handler_failure (env : Env) (event : string) (payload : Payload)
        (w : World) :
  let specific := specific_key event payload in
  let general := general_key event in
  let run := emit env event payload w in
  (forall e, truthy_opt (action payload) = true ->
     serial_reply env w specific payload = Rejected e ->
     run = (Rejected e, after w [CtxSerial specific payload])
     /\ count (is_serial_of general) (issued w run.2) = 0)
  /\ (forall r e, truthy_opt (action payload) = true ->
        serial_reply env w specific payload = Resolved r -> truthy r = false ->
        serial_reply env (after w [CtxSerial specific payload]) general payload
        = Rejected e ->
        run.1 = Rejected e)
  /\ (forall e, truthy_opt (action payload) = false ->
        serial_reply env w general payload = Rejected e ->
        run.1 = Rejected e).
Proof.
  cbv zeta. split; [|split].
  - intros e Haction Hspecific.
    rewrite emit_run, Haction, Hspecific. split; [reflexivity|].
    cbn [snd]. rewrite issued_after; cbn [count].
    rewrite is_serial_of_other; [reflexivity|].
    apply specific_key_not_general.
  - intros r e Haction Hspecific Hfalsy Hgeneral.
    by rewrite emit_run, Haction, Hspecific, Hfalsy, Hgeneral.
  - intros e Haction Hgeneral.
    by rewrite emit_run, Haction, Hgeneral.
Qed.

Lemma emit_handler_failure_witness :
  emit throwing_handler_env "issues" closed_issue scenario_world =
  (Rejected handler_error,
   after scenario_world [CtxSerial "github/event/issues/closed" closed_issue]).
Proof.
  destruct (emit_handler_failure throwing_handler_env "issues" closed_issue
              scenario_world) as (Hthrown & _).
  exact (proj1 (Hthrown handler_error eq_refl eq_refl)).
Defined.

(** X10: one [emit] is one or two calls of [ctx.serial] and nothing
    else: no HTTP call, no message, no write to the session.  A falsy
    result can only come from the general pipeline: if [emit] resolves
    with a falsy value, the general pipeline was consulted, last, and
    resolved with that value. *)
Theorem emit_footprint (env : Env) (event : string) (payload : Payload) (w : World) :
  let run := emit env event payload w in
  let calls := issued w run.2 in
  session run.2 = session w
  /\ trace run.2 = (trace w ++ calls)%list
  /\ 1 <= count is_serial calls <= 2
  /\ length calls = count is_serial calls
  /\ (forall r, run.1 = Resolved r -> truthy r = false ->
        last calls = Some (CtxSerial (general_key event) payload)
        /\ exists w0, serial_reply env w0 (general_key event) payload = Resolved r).
Proof.
  cbv zeta. rewrite emit_run.
  destruct (truthy_opt (action payload)).
  - destruct (serial_reply env w (specific_key event payload) payload) as [r0|e0].
    + destruct (truthy r0) eqn:Htruthy; cbn [fst snd]; rewrite issued_after; simpl;
        (split; [reflexivity|split; [reflexivity|split; [lia|split; [reflexivity|]]]]).
      * intros r Hr Hfalsy. congruence.
      * intros r Hr Hfalsy. eauto.
    + cbn [fst snd]; rewrite issued_after; simpl.
      split; [reflexivity|split; [reflexivity|split; [lia|split; [reflexivity|]]]].
      intros r Hr. discriminate.
  - cbn [fst snd]; rewrite issued_after; simpl.
    split; [reflexivity|split; [reflexivity|split; [lia|split; [reflexivity|]]]].
    intros r Hr Hfalsy. eauto.
Qed.

Lemma emit_footprint_witness :
  last (issued scenario_world (emit scenario_env "push" closed_issue scenario_world).2)
  = Some (CtxSerial (general_key "push") closed_issue).
Proof.
  destruct (emit_footprint scenario_env "push" closed_issue scenario_world)
    as (_ & _ & _ & _ & Hfalsy).
  exact (proj1 (Hfalsy JUndefined eq_refl eq_refl)).
Defined.

(** X11: [on] registers where [emit] looks.  For a payload whose action
    is [a], a listener registered with [on] for [event/a] sits under the
    key [emit] consults first, a listener registered for [event] under the
    only key [emit] consults after that; an omitted [prepend] is passed on
    as [false]. *)
Theorem on_registers_where_emit_looks (env : Env) (event a : string)
        (payload : Payload) (w : World) :
  action payload = Some a ->
  truthy_string a = true ->
  (forall (L D : Type) (ctx_on : string -> L -> bool -> D) (listener : L)
          (prepend : option bool),
     on ctx_on (event ++ "/" ++ a) listener prepend
     = ctx_on (specific_key event payload) listener (default false prepend)
     /\ on ctx_on event listener prepend
        = ctx_on (general_key event) listener (default false prepend))
  /\ exists rest,
       issued w (emit env event payload w).2
       = CtxSerial (specific_key event payload) payload :: rest
       /\ Forall (fun c => c = CtxSerial (general_key event) payload) rest.
Proof.
  intros Haction Htruthy. split.
  - intros L D ctx_on listener prepend.
    unfold on, specific_key, general_key, template. by rewrite Haction.
  - rewrite emit_run. unfold truthy_opt at 1. rewrite Haction, Htruthy.
    destruct (serial_reply env w (specific_key event payload) payload) as [r|e];
      [destruct (truthy r)|]; cbn [snd]; rewrite issued_after;
      eexists; (split; [reflexivity|]); repeat constructor.
Qed.

Lemma on_registers_where_emit_looks_witness :
  on note_registration "issues/closed" "notify" None
  = (specific_key "issues" closed_issue, "notify", false)
  /\ on note_registration "issues" "notify" (Some true)
     = (general_key "issues", "notify", true).
Proof.
  destruct (on_registers_where_emit_looks scenario_env "issues" "closed" closed_issue
              scenario_world eq_refl eq_refl) as (Hkeys & _).
  split.
  - exact (proj1 (Hkeys string (string * string * bool)%type note_registration
                        "notify" None)).
  - exact (proj2 (Hkeys string (string * string * bool)%type note_registration
                        "notify" (Some true))).
Defined.

Lemma append_injective (s t1 t2 : string) : s ++ t1 = s ++ t2 -> t1 = t2.
Proof.
  induction s as [|c s IH]; simpl; [auto|].
  intros Heq. injection Heq as Heq. auto.
Qed.

(** X12: the keys keep events and actions apart.  Two events share the
    key of their general pipeline only if they are the same event; for
    one event, two payloads with an action share the action-specific key
    only if the actions are the same; and the action-specific key of an
    event is never the key of its general pipeline. *)
Theorem keys_keep_events_apart (event event' : string) (payload payload' : Payload) :
  (general_key event = general_key event' -> event = event')
  /\ (forall a a', action payload = Some a -> action payload' = Some a' ->
        specific_key event payload = specific_key event payload' -> a = a')
  /\ specific_key event payload <> general_key event.
Proof.
  split; [|split].
  - unfold general_key. apply append_injective.
  - intros a a' Ha Ha'. unfold specific_key, template. rewrite Ha, Ha'; simpl.
    intros Heq.
    apply append_injective in Heq. apply append_injective in Heq.
    by apply (append_injective "/") in Heq.
  - apply specific_key_not_general.
Qed.

Lemma keys_keep_events_apart_witness :
  "closed" = "closed".
Proof.
  destruct (keys_keep_events_apart "issues" "issues" closed_issue closed_issue)
    as (_ & Hactions & _).
  exact (Hactions "closed" "closed" eq_refl eq_refl eq_refl).
Defined.

(** ** Edge cases of the request pipeline *)

Lemma request_config_empty_headers (config : Config) (s : Session) (body : JsVal) :
  request_config config s body (Some ∅) = request_config config s body None.
Proof.
  unfold request_config, spread_opt, spread.
  by rewrite (left_id_L ∅ (∪)).
Qed.

(** X13: an empty headers object is as good as none: the HTTP calls are
    built alike, and the whole run of [request], outcome and calls, is the
    same. *)
Theorem request_empty_headers (env : Env) (config : Config)
        (method url : string) (body : JsVal) (w : World) :
  request env config method url body (Some ∅) w
  = request env config method url body None w.
Proof.
  destruct (truthy_string (accessToken (github (user (session w))))) eqn:Htoken.
  - rewrite !(request_first_try env config method url body _ w Htoken).
    rewrite !refresh_and_retry_run. cbn [session after].
    rewrite !request_config_empty_headers.
    destruct (http_reply env _ method url _) as [v|e]; [reflexivity|].
    destruct (rethrown e); [reflexivity|].
    destruct (post_reply env _ token_endpoint _ _) as [tokens|e']; [|reflexivity].
    rewrite !_request_run. cbn [session].
    by rewrite !request_config_empty_headers.
  - by rewrite !request_unauthenticated_run.
Qed.

(** X14: a prompt that goes through turns the failure into [undefined].
    When there is no token, or when the first call fails with 401 and the
    refresh fails, and the message and the [github.authorize] command both
    resolve, [request] resolves, with [undefined]: neither the 401 nor the
    error of the refresh reaches the caller. *)
Theorem request_resolves_undefined_after_prompt (env : Env) (config : Config)
        (method url : string) (body : JsVal) (hdrs : option Dict) (w : World) :
  (truthy_string (accessToken (github (user (session w)))) = false ->
   send_reply env w (session_text env (session w) "github.require-auth")
   = Resolved tt ->
   execute_reply env
     (after w [SessionSend (session_text env (session w) "github.require-auth")])
     "github.authorize" = Resolved tt ->
   (request env config method url body hdrs w).1 = Resolved JUndefined)
  /\ (forall e e',
        let refreshed :=
          after w [LoggerDebug method url body;
                   Http method url (request_config config (session w) body hdrs);
                   HttpPost token_endpoint (JObj "{}")
                            (token_config config (refresh_params (session w)))] in
        truthy_string (accessToken (github (user (session w)))) = true ->
        http_reply env (after w [LoggerDebug method url body]) method url
                   (request_config config (session w) body hdrs) = Rejected e ->
        failed_with_401 e = true ->
        post_reply env
          (after w [LoggerDebug method url body;
                    Http method url (request_config config (session w) body hdrs)])
          token_endpoint (JObj "{}")
          (token_config config (refresh_params (session w)))
        = Rejected e' ->
        send_reply env refreshed (session_text env (session w) "github.auth-expired")
        = Resolved tt ->
        execute_reply env
          (after refreshed
             [SessionSend (session_text env (session w) "github.auth-expired")])
          "github.authorize" = Resolved tt ->
        (request env config method url body hdrs w).1 = Resolved JUndefined).
Proof.
  split.
  - intros Htoken Hsend Hexecute.
    rewrite (request_unauthenticated_run env config method url body hdrs w Htoken).
    by rewrite authorize_run, Hsend, Hexecute.
  - intros e e' refreshed Htoken Hfirst H401 Hrefresh Hsend Hexecute.
    rewrite (request_first_try env config method url body hdrs w Htoken), Hfirst.
    rewrite rethrown_iff, H401; simpl.
    rewrite refresh_and_retry_run; simpl. rewrite Hrefresh, after_after; simpl.
    rewrite authorize_run. fold refreshed. by rewrite Hsend, Hexecute.
Qed.

Lemma request_resolves_undefined_after_prompt_witness :
  (request expired_env scenario_config "GET" "/user" JUndefined None scenario_world).1
  = Resolved JUndefined.
Proof.
  destruct (request_resolves_undefined_after_prompt expired_env scenario_config
              "GET" "/user" JUndefined None scenario_world) as (_ & Hexpired).
  exact (Hexpired unauthorized
           (AxiosError "Request failed with status code 400"
                       (Some {| status := 400; response_data := JNull |}))
           eq_refl eq_refl eq_refl eq_refl eq_refl eq_refl).
Defined.
